(** * Gym registration gRPC service: the server's handlers and their properties

    A shallow embedding of the server half of [src/client/grpc_client.js]
    (the part that starts at the second [require('@grpc/grpc-js')]): the
    helper functions [authenticateToken], [formatTrainee],
    [convertTimestamp], [convertFromTimestamp], [formatRoutine],
    [formatRegistration] and the handlers of the five services, over a
    model of the Prisma tables and of the in-memory set [revokedTokens]. *)

From Stdlib Require Import ZArith Lia Ascii String.
From stdpp Require Import gmap strings list sorting.

Local Open Scope string_scope.
Local Open Scope list_scope.

(** ** Values that leave or enter the process *)

(** gRPC status codes used by the handlers ([grpc.status.*]). *)
Inductive grpc_status :=
| INVALID_ARGUMENT | NOT_FOUND | ALREADY_EXISTS | INTERNAL | UNAUTHENTICATED.

(** The [code] property of a thrown or returned error object: a gRPC status
    (the objects the handlers build), a Prisma error code such as ["P2025"],
    or no [code] property at all. *)
Inductive err_code :=
| Status (s : grpc_status)
| PrismaCode (c : string)
| NoCode.

Record error := Error { code : err_code; message : string }.

(** [google.protobuf.Timestamp] as the handlers see it. *)
Record Timestamp := { seconds : Z; nanos : Z }.

(** A JavaScript [Date] is represented by its time value, the integer
    number of milliseconds since the epoch ([getTime()]). *)
Definition Date := Z.

(** Property values of the plain objects that carry a trainee. *)
Inductive jsval :=
| JStr (s : string)
| JDate (d : Date)
| JUndefined.

(** A plain JavaScript object: a finite map from property names. *)
Abbreviation jsobj := (gmap string jsval).

Definition prop (o : jsobj) (k : string) : jsval := default JUndefined (o !! k).

(** ** Helper functions *)

(** [Math.floor(x / 1000)] and [x % 1000] on an integer time value.  The
    quotient of two doubles followed by [Math.floor] is the floor of the
    exact quotient for every time value a [Date] can hold (below 2^53);
    [%] is the remainder that takes the sign of the dividend. *)
Definition js_floor_div (x y : Z) : Z := (x / y)%Z.
Definition js_rem (x y : Z) : Z := Z.rem x y.

(** [function convertTimestamp(date)]: [null] stays [null]. *)
Definition convertTimestamp (date : option Date) : option Timestamp :=
  match date with
  | None => None
  | Some timestamp =>
      Some {| seconds := js_floor_div timestamp 1000;
              nanos := (js_rem timestamp 1000 * 1000000)%Z |}
  end.

(** [new Date(v)] for the number [num / den]: the time value is [v] with
    its fraction dropped (truncation towards zero). *)
Definition new_Date_of_quotient (num den : Z) : Date := Z.quot num den.

(** [function convertFromTimestamp(timestamp)]:
    [new Date(timestamp.seconds * 1000 + timestamp.nanos / 1000000)].
    The sum is taken exactly here, as [(seconds * 10^9 + nanos) / 10^6];
    the doubles of the source agree with it whenever [nanos] is a whole
    number of milliseconds, the only case the statements below rely on. *)
Definition convertFromTimestamp (timestamp : option Timestamp) : option Date :=
  match timestamp with
  | None => None
  | Some ts =>
      Some (new_Date_of_quotient
              (seconds ts * 1000 * 1000000 + nanos ts)%Z 1000000)
  end.

(** [createTimestamp] of the client class builds the same wire form. *)
Definition createTimestamp (date : Date) : Timestamp :=
  {| seconds := js_floor_div date 1000;
     nanos := (js_rem date 1000 * 1000000)%Z |}.

(** [function formatTrainee(trainee)]: the rest pattern
    [{ password, ...traineeWithoutPassword }] drops the [password]
    property, then [created_at] and [updated_at] are added. *)
Definition formatTrainee (trainee : option jsobj) : option jsobj :=
  match trainee with
  | None => None
  | Some t =>
      let traineeWithoutPassword := delete "password" t in
      Some (<["updated_at" := prop t "updatedAt"]>
              (<["created_at" := prop t "createdAt"]> traineeWithoutPassword))
  end.

(** ** The storage layer

    [prisma/schema.prisma] is not among the sources.  The tables below hold
    the columns the handlers read and write; what the schema alone decides
    is taken from the specification, and marked. *)

Module Trainee.
(** Modelled from the spec: the [Trainee] model of the missing
    [prisma/schema.prisma] (spec section 3: id, name, email, password,
    timezone, created and updated timestamps). *)
Record t := {
  id : string; name : string; email : string; password : string;
  timezone : string; createdAt : Date; updatedAt : Date }.
End Trainee.

Module Workout.
(** Modelled from the spec: the [Workout] model of the missing schema
    (id, name, integer duration, description, color, timestamps). *)
Record t := {
  id : string; name : string; duration : Z; description : string;
  color : string; createdAt : Date; updatedAt : Date }.
End Workout.

Module Routine.
(** Modelled from the spec: the [Routine] model of the missing schema
    (id, owning trainee id, the time slots as a serialized blob,
    timestamps). *)
Record t := {
  id : string; userId : string; availability : string;
  createdAt : Date; updatedAt : Date }.
End Routine.

Module Registration.
(** Modelled from the spec: the [Registration] model of the missing schema
    (id, event id, owning trainee id, invitee email, start and end time,
    status, timestamps). *)
Record t := {
  id : string; eventId : string; userId : string; inviteeEmail : string;
  startTime : option Date; endTime : option Date; status : string;
  createdAt : Date; updatedAt : Date }.
End Registration.

#[global] Instance Routine_eq_dec : EqDecision Routine.t.
Proof. solve_decision. Defined.

(** [message TimeSlot]. *)
Record TimeSlot := { day : string; start_time : string; end_time : string }.

(** The database behind [prisma]: every table in storage order.  Rows are
    not tied to one another: deleting a trainee leaves its routines and
    registrations in place (spec section 3, "no cascading delete"). *)
Record db := {
  trainee : list Trainee.t;
  workout : list Workout.t;
  routine : list Routine.t;
  registration : list Registration.t }.

(** The object Prisma returns for a trainee row when no [select] is given:
    every column, [password] included. *)
Definition trainee_object (r : Trainee.t) : jsobj :=
  list_to_map
    [ ("id", JStr (Trainee.id r)); ("name", JStr (Trainee.name r));
      ("email", JStr (Trainee.email r));
      ("password", JStr (Trainee.password r));
      ("timezone", JStr (Trainee.timezone r));
      ("createdAt", JDate (Trainee.createdAt r));
      ("updatedAt", JDate (Trainee.updatedAt r)) ].

(** [select: { f: true, ... }] keeps the listed columns only. *)
Definition select (fields : list string) (o : jsobj) : jsobj :=
  filter (λ kv, kv.1 ∈ fields) o.

(** The [select] of the trainee handlers. *)
Definition trainee_select : list string :=
  ["id"; "name"; "email"; "timezone"; "createdAt"; "updatedAt"].

(** The [select] of the joined trainee in [include: { trainee: ... }]. *)
Definition include_trainee_select : list string :=
  ["id"; "name"; "email"; "createdAt"; "updatedAt"].

(** Errors Prisma raises: a missing row on [update]/[delete] is [P2025], a
    unique-constraint violation is [P2002]. *)
Definition P2025 : error := Error (PrismaCode "P2025") "Record not found".
Definition P2002 : error :=
  Error (PrismaCode "P2002") "Unique constraint failed".

(** [findUnique({ where: { key: v } })] and [findFirst]: the first row
    whose column equals [v], or [null]. *)
Definition findUnique {R} (key : R → string) (v : string) (rows : list R)
  : option R :=
  find (λ r, bool_decide (key r = v)) rows.

Definition findFirst {R} (key : R → string) (v : string) (rows : list R)
  : option R :=
  find (λ r, bool_decide (key r = v)) rows.

(** [update({ where: { id }, data })]: the row with that id is replaced by
    its patched version; [None] when there is no such row. *)
Fixpoint update_row {R} (key : R → string) (v : string) (patch : R → R)
    (rows : list R) : option (R * list R) :=
  match rows with
  | [] => None
  | r :: rest =>
      if bool_decide (key r = v) then Some (patch r, patch r :: rest)
      else match update_row key v patch rest with
           | Some (r', rest') => Some (r', r :: rest')
           | None => None
           end
  end.

(** [delete({ where: { id } })]. *)
Fixpoint delete_row {R} (key : R → string) (v : string) (rows : list R)
  : option (list R) :=
  match rows with
  | [] => None
  | r :: rest =>
      if bool_decide (key r = v) then Some rest
      else match delete_row key v rest with
           | Some rest' => Some (r :: rest')
           | None => None
           end
  end.

(** [updateMany({ where: { key: v }, data })]: every matching row is
    patched; the result carries the number of rows touched. *)
Definition updateMany {R} (key : R → string) (v : string) (patch : R → R)
    (rows : list R) : nat * list R :=
  (length (filter (λ r, key r = v) rows),
   map (λ r, if bool_decide (key r = v) then patch r else r) rows).

(** [deleteMany({ where: { key: v } })]: every matching row is removed. *)
Definition deleteMany {R} (key : R → string) (v : string) (rows : list R)
  : nat * list R :=
  (length (filter (λ r, key r = v) rows),
   filter (λ r, key r ≠ v) rows).

(** [orderBy: { createdAt: 'desc' }]: rows with equal dates keep their
    storage order. *)
Fixpoint insert_desc {R} (at_ : R → Date) (r : R) (rows : list R) : list R :=
  match rows with
  | [] => [r]
  | r' :: rest =>
      if (at_ r' <=? at_ r)%Z then r :: r' :: rest
      else r' :: insert_desc at_ r rest
  end.

Definition orderBy_desc {R} (at_ : R → Date) (rows : list R) : list R :=
  foldr (insert_desc at_) [] rows.

(** ** The server process

    Its mutable state is the database reached through [prisma] and the set
    [revokedTokens]; the latter starts empty with the process. *)
Record server := { prisma : db; revokedTokens : gset string }.

(** The payload [jwt.verify] returns for a token of this service. *)
Record Claims := { traineeId : string; email : string }.

(** [message PaginationResponse]. *)
Record PaginationResponse := { page : Z; page_size : Z; total : Z }.

(** What [formatRoutine] and [formatRegistration] build. *)
Module RoutineMsg.
Record t := {
  id : string; user_id : string; availability : list TimeSlot;
  trainee : option jsobj;
  created_at : option Timestamp; updated_at : option Timestamp }.
End RoutineMsg.

Module RegistrationMsg.
Record t := {
  id : string; event_id : string; user_id : string; invitee_email : string;
  start_time : option Timestamp; end_time : option Timestamp;
  status : string; trainee : option jsobj;
  created_at : option Timestamp; updated_at : option Timestamp }.
End RegistrationMsg.

(** The second argument of [callback(null, ...)], per response shape. *)
Inductive response :=
| CreateSessionResponse (token : string) (trainee : option jsobj)
| DeleteSessionResponse (message : string)
| CheckSessionResponse (authenticated : bool) (trainee : option jsobj)
| ListTraineesResponse (data : list (option jsobj))
    (pagination : PaginationResponse)
| TraineeResponse (trainee : option jsobj)
| SuccessResponse (success : bool)
| ListWorkoutsResponse (workouts : list Workout.t)
| WorkoutResponse (workout : Workout.t)
| ListRoutinesResponse (routines : list RoutineMsg.t)
| RoutineResponse (routine : RoutineMsg.t)
| ListRegistrationsResponse (registrations : list RegistrationMsg.t)
| RegistrationResponse (registration : RegistrationMsg.t).

(** What a handler passes to [callback]: an error, or [null] and a reply. *)
Inductive reply :=
| callback_error (e : error)
| callback (r : response).

(** The body of a [try] block: it reads and writes the server state and
    either produces a value or throws. *)
Definition M (A : Type) : Type := server → (error + A) * server.

Definition ret {A} (a : A) : M A := λ s, (inr a, s).
Definition throw {A} (e : error) : M A := λ s, (inl e, s).
Definition bind {A B} (m : M A) (k : A → M B) : M B :=
  λ s, match m s with
       | (inr a, s') => k a s'
       | (inl e, s') => (inl e, s')
       end.

Notation "x <- m ;; k" := (bind m (λ x, k))
  (at level 100, m at next level, right associativity).
Notation "m ;;; k" := (bind m (λ _, k))
  (at level 100, right associativity).

Definition read_db : M db := λ s, (inr (prisma s), s).
Definition write_db (d : db) : M unit :=
  λ s, (inr tt, {| prisma := d; revokedTokens := revokedTokens s |}).

(** [try { body } catch (error) { callback(handler(error)) }]. *)
Definition try_catch (body : M reply) (handler : error → error)
  : server → reply * server :=
  λ s, match body s with
       | (inr r, s') => (r, s')
       | (inl e, s') => (callback_error (handler e), s')
       end.

Definition grpc_error (c : grpc_status) (msg : string) : error :=
  Error (Status c) msg.

Definition internal_error : error := grpc_error INTERNAL "Internal server error".

(** Truthiness of [error.code]: the gRPC statuses used here are non-zero
    numbers, a Prisma code is a non-empty string. *)
Definition code_truthy (e : error) : bool :=
  match code e with
  | Status _ => true
  | PrismaCode c => negb (bool_decide (c = ""))
  | NoCode => false
  end.

(** The [catch] blocks of the source, by shape. *)

(** [callback(error)]. *)
Definition catch_rethrow (e : error) : error := e.

(** [callback({ code: INTERNAL, ... })]. *)
Definition catch_internal (e : error) : error := internal_error.

(** [callback(error.code ? error : { code: INTERNAL, ... })]. *)
Definition catch_code (e : error) : error :=
  if code_truthy e then e else internal_error.

Definition is_P2025 (e : error) : bool :=
  match code e with
  | PrismaCode c => bool_decide (c = "P2025")
  | _ => false
  end.

(** [if (error.code === 'P2025') return callback(NOT_FOUND);
     callback(error.code ? error : INTERNAL)]. *)
Definition catch_P2025_code (msg : string) (e : error) : error :=
  if is_P2025 e then grpc_error NOT_FOUND msg else catch_code e.

(** [if (error.code === 'P2025') return callback(NOT_FOUND);
     callback({ code: INTERNAL, ... })]. *)
Definition catch_P2025_internal (msg : string) (e : error) : error :=
  if is_P2025 e then grpc_error NOT_FOUND msg else internal_error.

(** Setters for one table of the database. *)
Definition with_trainee (rows : list Trainee.t) (d : db) : db :=
  {| trainee := rows; workout := workout d; routine := routine d;
     registration := registration d |}.
Definition with_workout (rows : list Workout.t) (d : db) : db :=
  {| trainee := trainee d; workout := rows; routine := routine d;
     registration := registration d |}.
Definition with_routine (rows : list Routine.t) (d : db) : db :=
  {| trainee := trainee d; workout := workout d; routine := rows;
     registration := registration d |}.
Definition with_registration (rows : list Registration.t) (d : db) : db :=
  {| trainee := trainee d; workout := workout d; routine := routine d;
     registration := rows |}.

(** JavaScript's [x || d] on strings and numbers, and [!x]. *)
Definition or_default_str (x d : string) : string :=
  if bool_decide (x = "") then d else x.
Definition or_default_num (x d : Z) : Z :=
  if bool_decide (x = 0%Z) then d else x.
Definition falsy_str (x : string) : bool := bool_decide (x = "").
Definition falsy_num (x : Z) : bool := bool_decide (x = 0%Z).

(** [if (f !== undefined && f !== '') updateData.f = f]: the entry of
    [updateData] for an optional string field. *)
Definition sparse (f : option string) : option string :=
  match f with
  | Some v => if bool_decide (v = "") then None else Some v
  | None => None
  end.

(** Applying one entry of [updateData] to a column. *)
Definition patched {A} (entry : option A) (old : A) : A :=
  match entry with Some v => v | None => old end.

(** The collaborators outside the repository: the [jsonwebtoken] package
    ([jwt.sign] with [expiresIn: '2h'] and [jwt.verify], both under
    [JWT_SECRET] and the clock), [JSON.stringify]/[JSON.parse] on a
    time-slot array, and the storage engine's answer to a [findMany] whose
    [skip] or [take] is negative. *)
Class Collaborators := {
  jwt_sign : Claims → Date → string;
  jwt_verify : string → Date → option Claims;
  JSON_stringify : list TimeSlot → string;
  JSON_parse : string → list TimeSlot;
  findMany_negative : Z → Z → list Trainee.t → error + list Trainee.t }.

Section Handlers.

Context {collab : Collaborators}.

(** The three failures of [authenticateToken]. *)
Definition MissingToken : error :=
  grpc_error UNAUTHENTICATED "Authorization token missing".
Definition RevokedToken : error :=
  grpc_error UNAUTHENTICATED "Token is revoked".
Definition InvalidToken : error :=
  grpc_error UNAUTHENTICATED "Invalid token".

(** [function authenticateToken(token)]; [now] is the clock [jwt.verify]
    compares the expiry with. *)
Definition authenticateToken (token : string) (now : Date) : M Claims :=
  λ s,
    if falsy_str token then throw MissingToken s
    else if bool_decide (token ∈ revokedTokens s) then throw RevokedToken s
    else match jwt_verify token now with
         | Some decoded => ret decoded s
         | None => throw InvalidToken s
         end.

(** [revokedTokens.add(token)]. *)
Definition revokedTokens_add (token : string) : M unit :=
  λ s, (inr tt, {| prisma := prisma s;
                   revokedTokens := {[token]} ∪ revokedTokens s |}).

(** *** Session service *)

Definition CreateSession (email password : string) (now : Date)
  : server → reply * server :=
  try_catch
    (if falsy_str email || falsy_str password then
       ret (callback_error
              (grpc_error INVALID_ARGUMENT "Email and password are required"))
     else
       d <- read_db ;;
       match findUnique Trainee.email email (trainee d) with
       | None =>
           ret (callback_error
                  (grpc_error UNAUTHENTICATED "Invalid credentials"))
       | Some trainee =>
           if negb (bool_decide (Trainee.password trainee = password)) then
             ret (callback_error
                    (grpc_error UNAUTHENTICATED "Invalid credentials"))
           else
             let token :=
               jwt_sign {| traineeId := Trainee.id trainee;
                           email := Trainee.email trainee |} now in
             ret (callback
                    (CreateSessionResponse token
                       (formatTrainee (Some (trainee_object trainee)))))
       end)
    catch_internal.

Definition DeleteSession (token : string) (now : Date)
  : server → reply * server :=
  try_catch
    (authenticateToken token now ;;;
     revokedTokens_add token ;;;
     ret (callback (DeleteSessionResponse "Successfully logged out")))
    catch_rethrow.

Definition CheckSession (token : string) (now : Date)
  : server → reply * server :=
  try_catch
    (userData <- authenticateToken token now ;;
     d <- read_db ;;
     match findUnique Trainee.id (traineeId userData) (trainee d) with
     | None =>
         ret (callback_error (grpc_error NOT_FOUND "Trainee not found"))
     | Some trainee =>
         ret (callback
                (CheckSessionResponse true
                   (formatTrainee (Some (trainee_object trainee)))))
     end)
    catch_rethrow.

(** *** Trainee service *)

(** [prisma.trainee.findMany({ skip, take, select })]. *)
Definition trainee_findMany (skip take : Z) (rows : list Trainee.t)
  : error + list Trainee.t :=
  if (0 <=? skip)%Z && (0 <=? take)%Z then
    inr (firstn (Z.to_nat take) (skipn (Z.to_nat skip) rows))
  else findMany_negative skip take rows.

Definition selected_trainee (r : Trainee.t) : jsobj :=
  select trainee_select (trainee_object r).

(** [pagination] is [null] when the request carries none; its fields are
    0 when unset. *)
Definition ListTrainees (token : string) (pagination : option (Z * Z))
    (now : Date) : server → reply * server :=
  try_catch
    (authenticateToken token now ;;;
     let page :=
       match pagination with
       | Some (p, _) => or_default_num p 1
       | None => 1%Z
       end in
     let pageSize :=
       match pagination with
       | Some (_, ps) => or_default_num ps 20
       | None => 20%Z
       end in
     let skip := ((page - 1) * pageSize)%Z in
     d <- read_db ;;
     match trainee_findMany skip pageSize (trainee d) with
     | inl e => throw e
     | inr trainees =>
         let total := Z.of_nat (length (trainee d)) in
         ret (callback
                (ListTraineesResponse
                   (map (λ r, formatTrainee (Some (selected_trainee r)))
                      trainees)
                   {| page := page; page_size := pageSize; total := total |}))
     end)
    catch_code.

(** [prisma.trainee.create]: [id] is generated by the storage layer
    ([fresh]), both dates are the time of the call. *)
Definition CreateTrainee (name email password timezone : string)
    (now : Date) (fresh : string) : server → reply * server :=
  try_catch
    (if falsy_str name || falsy_str email || falsy_str password then
       ret (callback_error
              (grpc_error INVALID_ARGUMENT
                 "Name, email, and password are required"))
     else
       d <- read_db ;;
       match findUnique Trainee.email email (trainee d) with
       | Some existingTrainee =>
           ret (callback_error
                  (grpc_error ALREADY_EXISTS "Email is already in use"))
       | None =>
           let newTrainee :=
             {| Trainee.id := fresh; Trainee.name := name;
                Trainee.email := email; Trainee.password := password;
                Trainee.timezone := timezone;
                Trainee.createdAt := now; Trainee.updatedAt := now |} in
           write_db (with_trainee (trainee d ++ [newTrainee]) d) ;;;
           ret (callback
                  (TraineeResponse
                     (formatTrainee (Some (selected_trainee newTrainee)))))
       end)
    catch_internal.

Definition GetTrainee (token trainee_id : string) (now : Date)
  : server → reply * server :=
  try_catch
    (authenticateToken token now ;;;
     d <- read_db ;;
     match findUnique Trainee.id trainee_id (trainee d) with
     | None =>
         ret (callback_error (grpc_error NOT_FOUND "Trainee not found"))
     | Some trainee =>
         ret (callback
                (TraineeResponse
                   (formatTrainee (Some (selected_trainee trainee)))))
     end)
    catch_code.

(** The [updateData] object of [UpdateTrainee]: an absent property is
    [None]. *)
Record TraineeUpdate := {
  u_name : option string; u_email : option string;
  u_password : option string; u_timezone : option string }.

(** [update] writes the properties [data] has; [updatedAt] follows every
    update (spec section 8: an update changes nothing "except
    [updated_at]"). *)
Definition patch_trainee (data : TraineeUpdate) (now : Date) (r : Trainee.t)
  : Trainee.t :=
  {| Trainee.id := Trainee.id r;
     Trainee.name := patched (u_name data) (Trainee.name r);
     Trainee.email := patched (u_email data) (Trainee.email r);
     Trainee.password := patched (u_password data) (Trainee.password r);
     Trainee.timezone := patched (u_timezone data) (Trainee.timezone r);
     Trainee.createdAt := Trainee.createdAt r;
     Trainee.updatedAt := now |}.

(** Modelled from the spec: [email] is a unique column of the missing
    schema (spec section 3, "email (unique)"; the handlers use it as a
    [findUnique] key), so writing an address another row holds is
    refused. *)
Definition email_taken (id : string) (data : TraineeUpdate)
    (rows : list Trainee.t) : bool :=
  match u_email data with
  | Some e =>
      bool_decide
        (Exists (λ r, Trainee.email r = e ∧ Trainee.id r ≠ id) rows)
  | None => false
  end.

(** [prisma.trainee.update({ where: { id }, data })]. *)
Definition trainee_update (id : string) (data : TraineeUpdate) (now : Date)
    (rows : list Trainee.t) : error + Trainee.t * list Trainee.t :=
  match update_row Trainee.id id (patch_trainee data now) rows with
  | None => inl P2025
  | Some res => if email_taken id data rows then inl P2002 else inr res
  end.

Definition UpdateTrainee (token trainee_id : string)
    (name email password timezone : option string) (now : Date)
  : server → reply * server :=
  try_catch
    (authenticateToken token now ;;;
     let updateData :=
       {| u_name := sparse name; u_email := sparse email;
          u_password := sparse password; u_timezone := sparse timezone |} in
     d <- read_db ;;
     match trainee_update trainee_id updateData now (trainee d) with
     | inl e => throw e
     | inr (updatedTrainee, rows) =>
         write_db (with_trainee rows d) ;;;
         ret (callback
                (TraineeResponse
                   (formatTrainee (Some (selected_trainee updatedTrainee)))))
     end)
    (catch_P2025_internal "Trainee not found").

Definition DeleteTrainee (token trainee_id : string) (now : Date)
  : server → reply * server :=
  try_catch
    (authenticateToken token now ;;;
     d <- read_db ;;
     match delete_row Trainee.id trainee_id (trainee d) with
     | None => throw P2025
     | Some rows =>
         write_db (with_trainee rows d) ;;;
         ret (callback (SuccessResponse true))
     end)
    (catch_P2025_code "Trainee not found").

(** *** Workout service *)

Definition ListWorkouts (token : string) (now : Date)
  : server → reply * server :=
  try_catch
    (authenticateToken token now ;;;
     d <- read_db ;;
     let workouts := orderBy_desc Workout.createdAt (workout d) in
     ret (callback (ListWorkoutsResponse workouts)))
    catch_code.

Definition CreateWorkout (token name : string) (duration : Z)
    (description color : string) (now : Date) (fresh : string)
  : server → reply * server :=
  try_catch
    (authenticateToken token now ;;;
     if falsy_str name || falsy_num duration then
       ret (callback_error
              (grpc_error INVALID_ARGUMENT "Name and duration are required"))
     else
       d <- read_db ;;
       let newWorkout :=
         {| Workout.id := fresh; Workout.name := name;
            Workout.duration := duration;
            Workout.description := description; Workout.color := color;
            Workout.createdAt := now; Workout.updatedAt := now |} in
       write_db (with_workout (workout d ++ [newWorkout]) d) ;;;
       ret (callback (WorkoutResponse newWorkout)))
    catch_code.

Definition GetWorkout (token workout_id : string) (now : Date)
  : server → reply * server :=
  try_catch
    (authenticateToken token now ;;;
     d <- read_db ;;
     match findUnique Workout.id workout_id (workout d) with
     | None =>
         ret (callback_error (grpc_error NOT_FOUND "Workout not found"))
     | Some workout => ret (callback (WorkoutResponse workout))
     end)
    catch_code.

(** The [updateData] object of [UpdateWorkout]. *)
Record WorkoutUpdate := {
  u_wname : option string; u_duration : option Z;
  u_description : option string; u_color : option string }.

Definition patch_workout (data : WorkoutUpdate) (now : Date) (r : Workout.t)
  : Workout.t :=
  {| Workout.id := Workout.id r;
     Workout.name := patched (u_wname data) (Workout.name r);
     Workout.duration := patched (u_duration data) (Workout.duration r);
     Workout.description :=
       patched (u_description data) (Workout.description r);
     Workout.color := patched (u_color data) (Workout.color r);
     Workout.createdAt := Workout.createdAt r;
     Workout.updatedAt := now |}.

Definition UpdateWorkout (token workout_id : string) (name : option string)
    (duration : option Z) (description color : option string) (now : Date)
  : server → reply * server :=
  try_catch
    (authenticateToken token now ;;;
     let updateData :=
       {| u_wname := sparse name; u_duration := duration;
          u_description := sparse description; u_color := sparse color |} in
     d <- read_db ;;
     match update_row Workout.id workout_id (patch_workout updateData now)
             (workout d) with
     | None => throw P2025
     | Some (updatedWorkout, rows) =>
         write_db (with_workout rows d) ;;;
         ret (callback (WorkoutResponse updatedWorkout))
     end)
    (catch_P2025_internal "Workout not found").

Definition DeleteWorkout (token workout_id : string) (now : Date)
  : server → reply * server :=
  try_catch
    (authenticateToken token now ;;;
     d <- read_db ;;
     match delete_row Workout.id workout_id (workout d) with
     | None => throw P2025
     | Some rows =>
         write_db (with_workout rows d) ;;;
         ret (callback (SuccessResponse true))
     end)
    (catch_P2025_code "Workout not found").

(** *** Routine service *)

(** [include: { trainee: { select: ... } }]: the trainee row the foreign
    key points to, or [null]. *)
Definition include_trainee (userId : string) (d : db) : option jsobj :=
  match findUnique Trainee.id userId (trainee d) with
  | Some t => Some (select include_trainee_select (trainee_object t))
  | None => None
  end.

(** [function formatRoutine(routine)]; [joined] is [routine.trainee]. *)
Definition formatRoutine (routine : Routine.t) (joined : option jsobj)
  : RoutineMsg.t :=
  {| RoutineMsg.id := Routine.id routine;
     RoutineMsg.user_id := Routine.userId routine;
     RoutineMsg.availability := JSON_parse (Routine.availability routine);
     RoutineMsg.trainee :=
       match joined with
       | Some t => formatTrainee (Some t)
       | None => None
       end;
     RoutineMsg.created_at := convertTimestamp (Some (Routine.createdAt routine));
     RoutineMsg.updated_at := convertTimestamp (Some (Routine.updatedAt routine)) |}.

Definition routine_with_trainee (d : db) (r : Routine.t) : RoutineMsg.t :=
  formatRoutine r (include_trainee (Routine.userId r) d).

(** [trainee_id] is an optional field: [undefined] when absent. *)
Definition ListRoutines (token : string) (trainee_id : option string)
    (now : Date) : server → reply * server :=
  try_catch
    (authenticateToken token now ;;;
     d <- read_db ;;
     let matching :=
       match sparse trainee_id with
       | Some id => filter (λ r, Routine.userId r = id) (routine d)
       | None => routine d
       end in
     let routines := orderBy_desc Routine.createdAt matching in
     ret (callback
            (ListRoutinesResponse (map (routine_with_trainee d) routines))))
    catch_code.

Definition CreateRoutine (token user_id : string)
    (availability : list TimeSlot) (now : Date) (fresh : string)
  : server → reply * server :=
  try_catch
    (authenticateToken token now ;;;
     if falsy_str user_id || bool_decide (length availability = 0) then
       ret (callback_error
              (grpc_error INVALID_ARGUMENT
                 "user_id and availability are required"))
     else
       d <- read_db ;;
       match findUnique Trainee.id user_id (trainee d) with
       | None =>
           ret (callback_error (grpc_error NOT_FOUND "Trainee not found"))
       | Some trainee =>
           let newRoutine :=
             {| Routine.id := fresh; Routine.userId := user_id;
                Routine.availability := JSON_stringify availability;
                Routine.createdAt := now; Routine.updatedAt := now |} in
           write_db (with_routine (routine d ++ [newRoutine]) d) ;;;
           ret (callback
                  (RoutineResponse (routine_with_trainee d newRoutine)))
       end)
    catch_code.

Definition GetTraineeRoutine (token trainee_id : string) (now : Date)
  : server → reply * server :=
  try_catch
    (authenticateToken token now ;;;
     d <- read_db ;;
     match findFirst Routine.userId trainee_id (routine d) with
     | None =>
         ret (callback_error (grpc_error NOT_FOUND "Routine not found"))
     | Some routine =>
         ret (callback (RoutineResponse (routine_with_trainee d routine)))
     end)
    catch_code.

Definition set_availability (blob : string) (now : Date) (r : Routine.t)
  : Routine.t :=
  {| Routine.id := Routine.id r; Routine.userId := Routine.userId r;
     Routine.availability := blob;
     Routine.createdAt := Routine.createdAt r; Routine.updatedAt := now |}.

Definition UpdateTraineeRoutine (token trainee_id : string)
    (availability : list TimeSlot) (now : Date)
  : server → reply * server :=
  try_catch
    (authenticateToken token now ;;;
     if bool_decide (length availability = 0) then
       ret (callback_error
              (grpc_error INVALID_ARGUMENT "availability is required"))
     else
       d <- read_db ;;
       let updatedRoutine :=
         updateMany Routine.userId trainee_id
           (set_availability (JSON_stringify availability) now)
           (routine d) in
       write_db (with_routine updatedRoutine.2 d) ;;;
       if bool_decide (updatedRoutine.1 = 0) then
         ret (callback_error (grpc_error NOT_FOUND "Routine not found"))
       else
         match findFirst Routine.userId trainee_id updatedRoutine.2 with
         | Some routine =>
             ret (callback
                    (RoutineResponse (routine_with_trainee d routine)))
         | None => throw (Error NoCode "TypeError")
         end)
    catch_internal.

Definition DeleteTraineeRoutine (token trainee_id : string) (now : Date)
  : server → reply * server :=
  try_catch
    (authenticateToken token now ;;;
     d <- read_db ;;
     let deletedRoutine := deleteMany Routine.userId trainee_id (routine d) in
     write_db (with_routine deletedRoutine.2 d) ;;;
     if bool_decide (deletedRoutine.1 = 0) then
       ret (callback_error (grpc_error NOT_FOUND "Routine not found"))
     else ret (callback (SuccessResponse true)))
    catch_code.

(** *** Registration service *)

(** [function formatRegistration(registration)]; [joined] is
    [registration.trainee]. *)
Definition formatRegistration (registration : Registration.t)
    (joined : option jsobj) : RegistrationMsg.t :=
  {| RegistrationMsg.id := Registration.id registration;
     RegistrationMsg.event_id := Registration.eventId registration;
     RegistrationMsg.user_id := Registration.userId registration;
     RegistrationMsg.invitee_email := Registration.inviteeEmail registration;
     RegistrationMsg.start_time :=
       convertTimestamp (Registration.startTime registration);
     RegistrationMsg.end_time :=
       convertTimestamp (Registration.endTime registration);
     RegistrationMsg.status := Registration.status registration;
     RegistrationMsg.trainee :=
       match joined with
       | Some t => formatTrainee (Some t)
       | None => None
       end;
     RegistrationMsg.created_at :=
       convertTimestamp (Some (Registration.createdAt registration));
     RegistrationMsg.updated_at :=
       convertTimestamp (Some (Registration.updatedAt registration)) |}.

Definition registration_with_trainee (d : db) (r : Registration.t)
  : RegistrationMsg.t :=
  formatRegistration r (include_trainee (Registration.userId r) d).

Definition ListRegistrations (token : string) (now : Date)
  : server → reply * server :=
  try_catch
    (authenticateToken token now ;;;
     d <- read_db ;;
     let registrations :=
       orderBy_desc Registration.createdAt (registration d) in
     ret (callback
            (ListRegistrationsResponse
               (map (registration_with_trainee d) registrations))))
    catch_code.

(** [start_time] and [end_time] are message fields: [null] when absent. *)
Definition CreateRegistration (token event_id user_id invitee_email : string)
    (start_time end_time : option Timestamp) (status : string)
    (now : Date) (fresh : string) : server → reply * server :=
  try_catch
    (authenticateToken token now ;;;
     if falsy_str event_id || falsy_str user_id || falsy_str invitee_email
        || bool_decide (start_time = None) then
       ret (callback_error
              (grpc_error INVALID_ARGUMENT
                 "event_id, user_id, invitee_email, and start_time are required"))
     else
       d <- read_db ;;
       match findUnique Trainee.id user_id (trainee d) with
       | None =>
           ret (callback_error (grpc_error NOT_FOUND "Trainee not found"))
       | Some trainee =>
           let newRegistration :=
             {| Registration.id := fresh;
                Registration.eventId := event_id;
                Registration.userId := user_id;
                Registration.inviteeEmail := invitee_email;
                Registration.startTime := convertFromTimestamp start_time;
                Registration.endTime :=
                  match end_time with
                  | Some _ => convertFromTimestamp end_time
                  | None => None
                  end;
                Registration.status := or_default_str status "scheduled";
                Registration.createdAt := now;
                Registration.updatedAt := now |} in
           write_db (with_registration (registration d ++ [newRegistration]) d) ;;;
           ret (callback
                  (RegistrationResponse
                     (registration_with_trainee d newRegistration)))
       end)
    catch_code.

Definition GetRegistration (token registration_id : string) (now : Date)
  : server → reply * server :=
  try_catch
    (authenticateToken token now ;;;
     d <- read_db ;;
     match findUnique Registration.id registration_id (registration d) with
     | None =>
         ret (callback_error (grpc_error NOT_FOUND "Registration not found"))
     | Some registration =>
         ret (callback
                (RegistrationResponse
                   (registration_with_trainee d registration)))
     end)
    catch_code.

(** The [updateData] object of [UpdateRegistration]. *)
Record RegistrationUpdate := {
  u_eventId : option string; u_userId : option string;
  u_inviteeEmail : option string; u_startTime : option (option Date);
  u_endTime : option (option Date); u_status : option string }.

Definition patch_registration (data : RegistrationUpdate) (now : Date)
    (r : Registration.t) : Registration.t :=
  {| Registration.id := Registration.id r;
     Registration.eventId := patched (u_eventId data) (Registration.eventId r);
     Registration.userId := patched (u_userId data) (Registration.userId r);
     Registration.inviteeEmail :=
       patched (u_inviteeEmail data) (Registration.inviteeEmail r);
     Registration.startTime :=
       patched (u_startTime data) (Registration.startTime r);
     Registration.endTime := patched (u_endTime data) (Registration.endTime r);
     Registration.status := patched (u_status data) (Registration.status r);
     Registration.createdAt := Registration.createdAt r;
     Registration.updatedAt := now |}.

(** The optional message fields [start_time] and [end_time] are
    [undefined] when absent. *)
Definition UpdateRegistration (token registration_id : string)
    (event_id user_id invitee_email : option string)
    (start_time end_time : option Timestamp) (status : option string)
    (now : Date) : server → reply * server :=
  try_catch
    (authenticateToken token now ;;;
     let updateData :=
       {| u_eventId := sparse event_id; u_userId := sparse user_id;
          u_inviteeEmail := sparse invitee_email;
          u_startTime :=
            match start_time with
            | Some ts => Some (convertFromTimestamp (Some ts))
            | None => None
            end;
          u_endTime :=
            match end_time with
            | Some ts => Some (convertFromTimestamp (Some ts))
            | None => None
            end;
          u_status := sparse status |} in
     d <- read_db ;;
     match update_row Registration.id registration_id
             (patch_registration updateData now) (registration d) with
     | None => throw P2025
     | Some (updatedRegistration, rows) =>
         let d' := with_registration rows d in
         write_db d' ;;;
         ret (callback
                (RegistrationResponse
                   (registration_with_trainee d' updatedRegistration)))
     end)
    (catch_P2025_internal "Registration not found").

Definition DeleteRegistration (token registration_id : string) (now : Date)
  : server → reply * server :=
  try_catch
    (authenticateToken token now ;;;
     d <- read_db ;;
     match delete_row Registration.id registration_id (registration d) with
     | None => throw P2025
     | Some rows =>
         write_db (with_registration rows d) ;;;
         ret (callback (SuccessResponse true))
     end)
    (catch_P2025_code "Registration not found").

(** *** The RPC surface

    One constructor per [rpc] of [proto/gym_registration.proto], with the
    fields of its request message. *)
Inductive request :=
| CreateSessionRequest (email password : string)
| DeleteSessionRequest (token : string)
| CheckSessionRequest (token : string)
| ListTraineesRequest (token : string) (pagination : option (Z * Z))
| CreateTraineeRequest (name email password timezone : string)
| GetTraineeRequest (token trainee_id : string)
| UpdateTraineeRequest (token trainee_id : string)
    (name email password timezone : option string)
| DeleteTraineeRequest (token trainee_id : string)
| ListWorkoutsRequest (token : string)
| CreateWorkoutRequest (token name : string) (duration : Z)
    (description color : string)
| GetWorkoutRequest (token workout_id : string)
| UpdateWorkoutRequest (token workout_id : string) (name : option string)
    (duration : option Z) (description color : option string)
| DeleteWorkoutRequest (token workout_id : string)
| ListRoutinesRequest (token : string) (trainee_id : option string)
| CreateRoutineRequest (token user_id : string) (availability : list TimeSlot)
| GetTraineeRoutineRequest (token trainee_id : string)
| UpdateTraineeRoutineRequest (token trainee_id : string)
    (availability : list TimeSlot)
| DeleteTraineeRoutineRequest (token trainee_id : string)
| ListRegistrationsRequest (token : string)
| CreateRegistrationRequest (token event_id user_id invitee_email : string)
    (start_time end_time : option Timestamp) (status : string)
| GetRegistrationRequest (token registration_id : string)
| UpdateRegistrationRequest (token registration_id : string)
    (event_id user_id invitee_email : option string)
    (start_time end_time : option Timestamp) (status : option string)
| DeleteRegistrationRequest (token registration_id : string).

(** [server.addService]: the handler each request is routed to.  [now] is
    the clock at the call, [fresh] the identifier the storage layer would
    give a row created by it. *)
Definition serve (now : Date) (fresh : string) (req : request)
  : server → reply * server :=
  match req with
  | CreateSessionRequest e p => CreateSession e p now
  | DeleteSessionRequest t => DeleteSession t now
  | CheckSessionRequest t => CheckSession t now
  | ListTraineesRequest t pg => ListTrainees t pg now
  | CreateTraineeRequest n e p tz => CreateTrainee n e p tz now fresh
  | GetTraineeRequest t i => GetTrainee t i now
  | UpdateTraineeRequest t i n e p tz => UpdateTrainee t i n e p tz now
  | DeleteTraineeRequest t i => DeleteTrainee t i now
  | ListWorkoutsRequest t => ListWorkouts t now
  | CreateWorkoutRequest t n du de c => CreateWorkout t n du de c now fresh
  | GetWorkoutRequest t i => GetWorkout t i now
  | UpdateWorkoutRequest t i n du de c => UpdateWorkout t i n du de c now
  | DeleteWorkoutRequest t i => DeleteWorkout t i now
  | ListRoutinesRequest t i => ListRoutines t i now
  | CreateRoutineRequest t u a => CreateRoutine t u a now fresh
  | GetTraineeRoutineRequest t i => GetTraineeRoutine t i now
  | UpdateTraineeRoutineRequest t i a => UpdateTraineeRoutine t i a now
  | DeleteTraineeRoutineRequest t i => DeleteTraineeRoutine t i now
  | ListRegistrationsRequest t => ListRegistrations t now
  | CreateRegistrationRequest t e u i st en s =>
      CreateRegistration t e u i st en s now fresh
  | GetRegistrationRequest t i => GetRegistration t i now
  | UpdateRegistrationRequest t i e u ie st en s =>
      UpdateRegistration t i e u ie st en s now
  | DeleteRegistrationRequest t i => DeleteRegistration t i now
  end.

(** The token an authenticated RPC carries; [CreateSession] and
    [CreateTrainee] take none. *)
Definition token_of (req : request) : option string :=
  match req with
  | CreateSessionRequest _ _ | CreateTraineeRequest _ _ _ _ => None
  | DeleteSessionRequest t | CheckSessionRequest t
  | ListTraineesRequest t _ | GetTraineeRequest t _
  | UpdateTraineeRequest t _ _ _ _ _ | DeleteTraineeRequest t _
  | ListWorkoutsRequest t | CreateWorkoutRequest t _ _ _ _
  | GetWorkoutRequest t _ | UpdateWorkoutRequest t _ _ _ _ _
  | DeleteWorkoutRequest t _ | ListRoutinesRequest t _
  | CreateRoutineRequest t _ _ | GetTraineeRoutineRequest t _
  | UpdateTraineeRoutineRequest t _ _ | DeleteTraineeRoutineRequest t _
  | ListRegistrationsRequest t | CreateRegistrationRequest t _ _ _ _ _ _
  | GetRegistrationRequest t _ | UpdateRegistrationRequest t _ _ _ _ _ _ _
  | DeleteRegistrationRequest t _ => Some t
  end.

(** The handlers whose [catch] block answers [INTERNAL] for every error
    that is not [P2025], whatever its [code]. *)
Definition catches_all_as_internal (req : request) : bool :=
  match req with
  | UpdateTraineeRequest _ _ _ _ _ _ | UpdateWorkoutRequest _ _ _ _ _ _
  | UpdateTraineeRoutineRequest _ _ _
  | UpdateRegistrationRequest _ _ _ _ _ _ _ _ => true
  | _ => false
  end.

(** States of a running process: it starts over any database with no
    revoked token, and every RPC moves it on. *)
Inductive reachable : server → Prop :=
| reachable_start (d : db) :
    reachable {| prisma := d; revokedTokens := ∅ |}
| reachable_serve (s : server) (now : Date) (fresh : string) (req : request) :
    reachable s → reachable (serve now fresh req s).2.

(** States the process can move to from [s]. *)
Inductive later_than (s : server) : server → Prop :=
| later_refl : later_than s s
| later_serve (s' : server) (now : Date) (fresh : string) (req : request) :
    later_than s s' → later_than s (serve now fresh req s').2.

(** Every trainee object a response carries: the [trainee] of the session
    and trainee replies, each entry of a trainee page, and the [trainee]
    embedded in every routine and registration. *)
Definition response_trainees (r : response) : list jsobj :=
  match r with
  | CreateSessionResponse _ t | CheckSessionResponse _ t
  | TraineeResponse t => option_list t
  | ListTraineesResponse data _ => omap id data
  | ListRoutinesResponse rs => omap RoutineMsg.trainee rs
  | RoutineResponse r => option_list (RoutineMsg.trainee r)
  | ListRegistrationsResponse rs => omap RegistrationMsg.trainee rs
  | RegistrationResponse r => option_list (RegistrationMsg.trainee r)
  | DeleteSessionResponse _ | SuccessResponse _
  | ListWorkoutsResponse _ | WorkoutResponse _ => []
  end.

Definition reply_trainees (r : reply) : list jsobj :=
  match r with
  | callback_error _ => []
  | callback resp => response_trainees resp
  end.

(** The object has no [password] property. *)
Definition redacted (o : jsobj) : Prop := o !! "password" = None.



(** The reply is an error with status [INVALID_ARGUMENT]. *)
Definition is_invalid_argument (r : reply) : Prop :=
  match r with
  | callback_error e => code e = Status INVALID_ARGUMENT
  | callback _ => False
  end.

(** The token gets past [authenticateToken]. *)
Definition authenticates (token : string) (now : Date) (s : server) : Prop :=
  ∃ decoded, authenticateToken token now s = (inr decoded, s).

End Handlers.

(** ** Stand-ins for the collaborators, to run the handlers on examples

    A token of the stand-in signer is [id/email]; it never expires.  The
    stored form of a time-slot array is its length in stars, and reading a
    blob back gives no slots.  A negative [skip] or [take] is refused with
    an error that has no [code]. *)
Module Demo.

Local Open Scope Z_scope.

Fixpoint split_slash (s : string) : option (string * string) :=
  match s with
  | EmptyString => None
  | String c rest =>
      if bool_decide (c = "/"%char) then Some (EmptyString, rest)
      else match split_slash rest with
           | Some (l, r) => Some (String c l, r)
           | None => None
           end
  end.

Definition sign (payload : Claims) (now : Date) : string :=
  traineeId payload +:+ "/" +:+ email payload.

Definition verify (token : string) (now : Date) : option Claims :=
  match split_slash token with
  | Some (i, e) =>
      if bool_decide (i = "") then None
      else Some {| traineeId := i; email := e |}
  | None => None
  end.

Definition stringify (a : list TimeSlot) : string :=
  fold_right (λ _ acc, String "*"%char acc) EmptyString a.

Definition parse (blob : string) : list TimeSlot := [].

Definition refuse_negative (skip take : Z) (rows : list Trainee.t)
  : error + list Trainee.t :=
  inl (Error NoCode "Invalid value for skip or take").

#[global] Instance collaborators : Collaborators :=
  {| jwt_sign := sign; jwt_verify := verify; JSON_stringify := stringify;
     JSON_parse := parse; findMany_negative := refuse_negative |}.

(** Trainee A as [CreateTrainee("A", "a@x.com", "pw", "UTC")] stores it at
    time 1000 under the identifier ["t1"]. *)
Definition trainee_A : Trainee.t :=
  {| Trainee.id := "t1"; Trainee.name := "A"; Trainee.email := "a@x.com";
     Trainee.password := "pw"; Trainee.timezone := "UTC";
     Trainee.createdAt := 1000%Z; Trainee.updatedAt := 1000%Z |}.

Definition empty_db : db :=
  {| trainee := []; workout := []; routine := []; registration := [] |}.

Definition token_A : string := "t1/a@x.com".

Definition claims_A : Claims := {| traineeId := "t1"; email := "a@x.com" |}.

Definition slot : TimeSlot :=
  {| day := "monday"; start_time := "08:00"; end_time := "10:00" |}.

(** The scenario of the specification: trainee A registers, logs in, and
    logs out. *)
Definition start : server := {| prisma := empty_db; revokedTokens := ∅ |}.

Definition registered : server :=
  (serve 1000 "t1" (CreateTraineeRequest "A" "a@x.com" "pw" "UTC") start).2.

Definition logged_in : server :=
  (serve 2000 "" (CreateSessionRequest "a@x.com" "pw") registered).2.

Definition logged_out : server :=
  (serve 3000 "" (DeleteSessionRequest token_A) logged_in).2.

(** Trainee A is deleted while the session token is still good. *)
Definition orphaned : server :=
  (serve 3000 "" (DeleteTraineeRequest token_A "t1") logged_in).2.

(** Trainee A gets two routines, and a second trainee one. *)
Definition two_routines : server :=
  (serve 2300 "r3" (CreateRoutineRequest token_A "t2" [slot])
     (serve 2250 "t2" (CreateTraineeRequest "B" "b@x.com" "pw" "UTC")
        (serve 2200 "r2" (CreateRoutineRequest token_A "t1" [slot; slot])
           (serve 2100 "r1" (CreateRoutineRequest token_A "t1" [slot])
              logged_in).2).2).2).2.

(** Trainee A also has a workout and a registration in store. *)
Definition stocked : server :=
  (serve 2300 "g1"
     (CreateRegistrationRequest token_A "event-123" "t1" "a@x.com"
        (Some {| seconds := 5; nanos := 0 |}) None "")
     (serve 2200 "w1"
        (CreateWorkoutRequest token_A "HIIT Training" 45 "intervals" "#FF5733")
        logged_in).2).2.



End Demo.

(** A second caller, with a token of the stand-in signer. *)
Module Second.

Definition token_B : string := "t2/b@x.com".

Definition claims_B : Claims := {| traineeId := "t2"; email := "b@x.com" |}.

End Second.

(** A second stand-in whose [JSON.parse] undoes its [JSON.stringify] on
    arrays of the one slot of the examples: the blob counts the slots. *)
Module Echo.

Definition parse (blob : string) : list TimeSlot :=
  replicate (String.length blob) Demo.slot.

Definition collaborators : Collaborators :=
  {| jwt_sign := Demo.sign; jwt_verify := Demo.verify;
     JSON_stringify := Demo.stringify; JSON_parse := parse;
     findMany_negative := Demo.refuse_negative |}.

End Echo.

(** ** Classes of requests *)

(** The handlers that only read: the session check and login, and every
    [List*] and [Get*]. *)
Definition read_only (req : request) : bool :=
  match req with
  | CreateSessionRequest _ _ | CheckSessionRequest _
  | ListTraineesRequest _ _ | GetTraineeRequest _ _
  | ListWorkoutsRequest _ | GetWorkoutRequest _ _
  | ListRoutinesRequest _ _ | GetTraineeRoutineRequest _ _
  | ListRegistrationsRequest _ | GetRegistrationRequest _ _ => true
  | _ => false
  end.

(** The handlers of the session service. *)
Definition session_request (req : request) : bool :=
  match req with
  | CreateSessionRequest _ _ | DeleteSessionRequest _
  | CheckSessionRequest _ => true
  | _ => false
  end.

(** The same request carrying another token. *)
Definition with_token (t : string) (req : request) : request :=
  match req with
  | CreateSessionRequest e p => CreateSessionRequest e p
  | CreateTraineeRequest n e p tz => CreateTraineeRequest n e p tz
  | DeleteSessionRequest _ => DeleteSessionRequest t
  | CheckSessionRequest _ => CheckSessionRequest t
  | ListTraineesRequest _ pg => ListTraineesRequest t pg
  | GetTraineeRequest _ i => GetTraineeRequest t i
  | UpdateTraineeRequest _ i n e p tz => UpdateTraineeRequest t i n e p tz
  | DeleteTraineeRequest _ i => DeleteTraineeRequest t i
  | ListWorkoutsRequest _ => ListWorkoutsRequest t
  | CreateWorkoutRequest _ n du de c => CreateWorkoutRequest t n du de c
  | GetWorkoutRequest _ i => GetWorkoutRequest t i
  | UpdateWorkoutRequest _ i n du de c => UpdateWorkoutRequest t i n du de c
  | DeleteWorkoutRequest _ i => DeleteWorkoutRequest t i
  | ListRoutinesRequest _ i => ListRoutinesRequest t i
  | CreateRoutineRequest _ u a => CreateRoutineRequest t u a
  | GetTraineeRoutineRequest _ i => GetTraineeRoutineRequest t i
  | UpdateTraineeRoutineRequest _ i a => UpdateTraineeRoutineRequest t i a
  | DeleteTraineeRoutineRequest _ i => DeleteTraineeRoutineRequest t i
  | ListRegistrationsRequest _ => ListRegistrationsRequest t
  | CreateRegistrationRequest _ e u i st en s =>
      CreateRegistrationRequest t e u i st en s
  | GetRegistrationRequest _ i => GetRegistrationRequest t i
  | UpdateRegistrationRequest _ i e u ie st en s =>
      UpdateRegistrationRequest t i e u ie st en s
  | DeleteRegistrationRequest _ i => DeleteRegistrationRequest t i
  end.


(** The rows come newest first. *)
Definition newest_first {R} (at_ : R → Date) (rows : list R) : Prop :=
  Sorted (λ a b, (at_ b ≤ at_ a)%Z) rows.

(** ** The client class

    [class GymRegistrationGrpcClient] of the first half of
    [src/client/grpc_client.js].  Its only state is [this.token]; a call
    goes straight to the handler of the server.  On the way a [null] string
    field is left unset by Protocol Buffers and reaches the handler as the
    empty string, and the error the client sees carries the [code] and the
    message text of the error the handler passed to [callback]. *)
Record client := { this_token : option string }.

(** [constructor() { this.token = null; }]. *)
Definition new_client : client := {| this_token := None |}.

(** How a promise settles: resolved with a response or with [null], or
    rejected with an error. *)
Inductive settled :=
| resolved (r : option response)
| rejected (e : error).

Definition wire_string (v : option string) : string := default "" v.

(** [response.token]. *)
Definition response_token (r : response) : option string :=
  match r with
  | CreateSessionResponse t _ => Some t
  | _ => None
  end.

(** [s.includes(needle)]. *)
Definition includes (needle s : string) : bool :=
  match String.index 0 needle s with
  | Some _ => true
  | None => false
  end.

(** [promisify(fn, client)]: the promise resolves with the response or
    rejects with the error of the callback. *)
Definition promisify (rpc : server → reply * server) (sv : server)
  : settled * server :=
  match rpc sv with
  | (callback r, sv') => (resolved (Some r), sv')
  | (callback_error e, sv') => (rejected e, sv')
  end.

Section Client.

Context {collab : Collaborators}.

Definition createSession (email password : string) (now : Date)
    (this : client) (sv : server) : settled * client * server :=
  match promisify (CreateSession email password now) sv with
  | (resolved (Some response), sv') =>
      (resolved (Some response),
       {| this_token := response_token response |}, sv')
  | (other, sv') => (other, this, sv')
  end.

Definition deleteSession (now : Date) (this : client) (sv : server)
  : settled * client * server :=
  match promisify (DeleteSession (wire_string (this_token this)) now) sv with
  | (resolved response, sv') =>
      (resolved response, {| this_token := None |}, sv')
  | (rejected e, sv') => (rejected e, this, sv')
  end.

Definition checkSession (now : Date) (this : client) (sv : server)
  : settled * client * server :=
  let '(out, sv') :=
    promisify (CheckSession (wire_string (this_token this)) now) sv in
  (out, this, sv').

(** An "already in use" failure is swallowed: the promise resolves with
    [null]. *)
Definition createTrainee (name email password timezone : string)
    (now : Date) (fresh : string) (this : client) (sv : server)
  : settled * client * server :=
  match promisify (CreateTrainee name email password timezone now fresh) sv
  with
  | (rejected e, sv') =>
      if negb (falsy_str (message e)) && includes "already in use" (message e)
      then (resolved None, this, sv')
      else (rejected e, this, sv')
  | (other, sv') => (other, this, sv')
  end.

(** [listTrainees(page = 1, pageSize = 5)]: an argument left out takes its
    default. *)
Definition listTrainees (page pageSize : option Z) (now : Date)
    (this : client) (sv : server) : settled * client * server :=
  let '(out, sv') :=
    promisify
      (ListTrainees (wire_string (this_token this))
         (Some (default 1%Z page, default 5%Z pageSize)) now) sv in
  (out, this, sv').

Definition createWorkout (name : string) (duration : Z)
    (description color : string) (now : Date) (fresh : string)
    (this : client) (sv : server) : settled * client * server :=
  let '(out, sv') :=
    promisify
      (CreateWorkout (wire_string (this_token this)) name duration
         description color now fresh) sv in
  (out, this, sv').

Definition listWorkouts (now : Date) (this : client) (sv : server)
  : settled * client * server :=
  let '(out, sv') :=
    promisify (ListWorkouts (wire_string (this_token this)) now) sv in
  (out, this, sv').

Definition createRoutine (userId : string) (availability : list TimeSlot)
    (now : Date) (fresh : string) (this : client) (sv : server)
  : settled * client * server :=
  let '(out, sv') :=
    promisify
      (CreateRoutine (wire_string (this_token this)) userId availability
         now fresh) sv in
  (out, this, sv').

(** [endTime ? this.createTimestamp(endTime) : null]; [endTime] is a
    [Date] or left out. *)
Definition createRegistration (eventId userId inviteeEmail : string)
    (startTime : Date) (endTime : option Date) (status : string)
    (now : Date) (fresh : string) (this : client) (sv : server)
  : settled * client * server :=
  let '(out, sv') :=
    promisify
      (CreateRegistration (wire_string (this_token this)) eventId userId
         inviteeEmail (Some (createTimestamp startTime))
         (createTimestamp <$> endTime) status now fresh) sv in
  (out, this, sv').

End Client.

(** ** The wire form of a timestamp as the specification words it

    [seconds = floor(epoch_ms / 1000)], [nanos = (epoch_ms mod 1000) * 1e6]
    with the mathematical modulus, and back
    [epoch_ms = seconds * 1000 + nanos / 1e6]. *)
Definition marshal_spec (epoch_ms : Z) : Timestamp :=
  {| seconds := (epoch_ms / 1000)%Z;
     nanos := (epoch_ms mod 1000 * 1000000)%Z |}.

Definition unmarshal_spec (ts : Timestamp) : Z :=
  (seconds ts * 1000 + nanos ts / 1000000)%Z.

(** The claim of first-match semantics: every routine of the table other
    than the first one of the trainee is found unchanged afterwards. *)
Definition only_first_match_touched (trainee_id : string)
    (before after : list Routine.t) : Prop :=
  ∀ r, r ∈ before → findFirst Routine.userId trainee_id before ≠ Some r →
       r ∈ after.

(** ** Properties of the handlers *)

Section Properties.

Context {collab : Collaborators}.

Local Arguments formatTrainee : simpl never.
Local Arguments convertFromTimestamp : simpl never.
Local Arguments convertTimestamp : simpl never.

(** *** The token authenticator *)

(** [authenticateToken] never changes the state. *)
Lemma authenticateToken_state token now s :
  (authenticateToken token now s).2 = s.
Proof.
  unfold authenticateToken, throw, ret.
  repeat case_match; reflexivity.
Qed.

(** The four outcomes of [authenticateToken], each with the condition that
    selects it. *)
Lemma authenticateToken_cases token now s :
  (token = "" ∧ authenticateToken token now s = (inl MissingToken, s))
  ∨ (token ≠ "" ∧ token ∈ revokedTokens s
     ∧ authenticateToken token now s = (inl RevokedToken, s))
  ∨ (token ≠ "" ∧ (token ∉ revokedTokens s) ∧ jwt_verify token now = None
     ∧ authenticateToken token now s = (inl InvalidToken, s))
  ∨ (∃ decoded, token ≠ "" ∧ (token ∉ revokedTokens s)
     ∧ jwt_verify token now = Some decoded
     ∧ authenticateToken token now s = (inr decoded, s)).
Proof.
  unfold authenticateToken, falsy_str, throw, ret.
  case_bool_decide as Hempty; [by left|].
  case_bool_decide as Hrevoked; [by right; left|].
  destruct (jwt_verify token now) as [decoded|] eqn:Hverify.
  - right; right; right. by exists decoded.
  - by right; right; left.
Qed.

Lemma authenticateToken_revoked token now s :
  token ≠ "" → token ∈ revokedTokens s →
  authenticateToken token now s = (inl RevokedToken, s).
Proof.
  intros Hne Hin. unfold authenticateToken, falsy_str, throw.
  rewrite bool_decide_eq_false_2 by done.
  by rewrite bool_decide_eq_true_2.
Qed.

(** Every thrown authentication failure carries [UNAUTHENTICATED]. *)
Lemma authenticateToken_throws token now s e :
  (authenticateToken token now s).1 = inl e →
  e = MissingToken ∨ e = RevokedToken ∨ e = InvalidToken.
Proof.
  destruct (authenticateToken_cases token now s)
    as [[_ ->]|[(_ & _ & ->)|[(_ & _ & _ & ->)|(c & _ & _ & _ & ->)]]];
    simpl; intros [= <-]; auto.
Qed.

(** *** What the handlers do to the set of revoked tokens *)

(** Unfolds a handler down to its case analysis. *)
Ltac unfold_handler :=
  unfold try_catch, bind, ret, throw, read_db, write_db, revokedTokens_add.

Ltac auth_cases token now s :=
  destruct (authenticateToken_cases token now s)
    as [[? ->]|[(? & ? & ->)|[(? & ? & ? & ->)|(? & ? & ? & ? & ->)]]].

(** Apart from a successful [DeleteSession], which adds its token, no
    handler touches [revokedTokens]. *)
Lemma serve_revokedTokens now fresh req s :
  revokedTokens (serve now fresh req s).2 = revokedTokens s
  ∨ ∃ token, req = DeleteSessionRequest token ∧ token ≠ ""
      ∧ revokedTokens (serve now fresh req s).2 = {[token]} ∪ revokedTokens s.
Proof.
  destruct req; simpl;
    unfold CreateSession, DeleteSession, CheckSession, ListTrainees,
      CreateTrainee, GetTrainee, UpdateTrainee, DeleteTrainee, ListWorkouts,
      CreateWorkout, GetWorkout, UpdateWorkout, DeleteWorkout, ListRoutines,
      CreateRoutine, GetTraineeRoutine, UpdateTraineeRoutine,
      DeleteTraineeRoutine, ListRegistrations, CreateRegistration,
      GetRegistration, UpdateRegistration, DeleteRegistration;
    unfold_handler;
    try (auth_cases token now s; simpl);
    try (left; repeat case_match; simplify_eq/=; reflexivity).
  right. eauto.
Qed.

Lemma serve_revokedTokens_mono now fresh req s :
  revokedTokens s ⊆ revokedTokens (serve now fresh req s).2.
Proof.
  destruct (serve_revokedTokens now fresh req s) as [Heq|(t & ? & ? & Heq)];
    rewrite Heq; [done|apply union_subseteq_r].
Qed.


Lemma later_than_revokedTokens s s' :
  later_than s s' → revokedTokens s ⊆ revokedTokens s'.
Proof.
  induction 1 as [|s' now fresh req _ IH]; [done|].
  etrans; [exact IH|apply serve_revokedTokens_mono].
Qed.

Lemma later_than_reachable s s' :
  reachable s → later_than s s' → reachable s'.
Proof. induction 2; [done|by constructor]. Qed.


(** C10.  When the token is present, not revoked and accepted by
    [jwt.verify], but no stored trainee has the id it carries,
    [CheckSession] answers [NOT_FOUND] ("Trainee not found"), and changes
    nothing. *)
Theorem CheckSession_unknown_trainee s token now decoded :
  token ≠ "" → token ∉ revokedTokens s →
  jwt_verify token now = Some decoded →
  findUnique Trainee.id (traineeId decoded) (trainee (prisma s)) = None →
  CheckSession token now s
  = (callback_error (grpc_error NOT_FOUND "Trainee not found"), s).
Proof.
  intros Hne Hnr Hv Hnone. unfold CheckSession. unfold_handler.
  auth_cases token now s; simplify_eq/=; try done.
  by rewrite Hnone.
Qed.

(** *** Revoked tokens *)

(** A revoked token is turned away by every handler that takes a token,
    with the state untouched.  The answer is [RevokedToken], except from
    the four handlers whose [catch] block replaces every error that is not
    [P2025] by [INTERNAL]. *)
Lemma revoked_token_rejected now fresh req s token :
  token ≠ "" → token ∈ revokedTokens s → token_of req = Some token →
  serve now fresh req s
  = (callback_error
       (if catches_all_as_internal req then internal_error else RevokedToken),
     s).
Proof.
  intros Hne Hin Htok.
  destruct req; simpl in *; simplify_eq;
    unfold DeleteSession, CheckSession, ListTrainees,
      GetTrainee, UpdateTrainee, DeleteTrainee, ListWorkouts,
      CreateWorkout, GetWorkout, UpdateWorkout, DeleteWorkout, ListRoutines,
      CreateRoutine, GetTraineeRoutine, UpdateTraineeRoutine,
      DeleteTraineeRoutine, ListRegistrations, CreateRegistration,
      GetRegistration, UpdateRegistration, DeleteRegistration;
    unfold_handler;
    rewrite (authenticateToken_revoked token now s Hne Hin); reflexivity.
Qed.

(** Once [DeleteSession] has accepted a token, every later state holds it
    in [revokedTokens]. *)
Lemma DeleteSession_revokes s token now s' :
  DeleteSession token now s
  = (callback (DeleteSessionResponse "Successfully logged out"), s') →
  token ≠ "" ∧ ∀ s'', later_than s' s'' → token ∈ revokedTokens s''.
Proof.
  unfold DeleteSession. unfold_handler.
  auth_cases token now s; simpl; intros [= <-]. split; [done|].
  intros s'' Hlater. apply (later_than_revokedTokens _ _ Hlater).
  simpl. set_solver.
Qed.

(** After a logout that succeeded, the token is turned away in every later
    state by every handler that takes a token: with [RevokedToken], or with
    [INTERNAL] from the four handlers that hide the error code. *)
Lemma after_logout_rejected s token now s' s'' now' fresh req :
  DeleteSession token now s
  = (callback (DeleteSessionResponse "Successfully logged out"), s') →
  later_than s' s'' → token_of req = Some token →
  serve now' fresh req s''
  = (callback_error
       (if catches_all_as_internal req then internal_error else RevokedToken),
     s'').
Proof.
  intros [Hne Hin]%DeleteSession_revokes Hlater Htok.
  apply (revoked_token_rejected now' fresh req s'' token Hne (Hin s'' Hlater)
           Htok).
Qed.

(** [DeleteSession] either accepts its token or fails with
    [UNAUTHENTICATED], leaving the state as it was. *)
Lemma DeleteSession_cases s token now :
  (∃ s', DeleteSession token now s
         = (callback (DeleteSessionResponse "Successfully logged out"), s'))
  ∨ (∃ msg, DeleteSession token now s
            = (callback_error (grpc_error UNAUTHENTICATED msg), s)).
Proof.
  unfold DeleteSession. unfold_handler.
  auth_cases token now s; simpl; eauto.
Qed.

(** *** Password redaction *)

Lemma formatTrainee_no_password (t : option jsobj) (o : jsobj) :
  formatTrainee t = Some o → o !! "password" = None.
Proof.
  destruct t as [t|]; unfold formatTrainee; [|discriminate].
  intros [= <-].
  rewrite lookup_insert_ne by discriminate.
  rewrite lookup_insert_ne by discriminate.
  apply lookup_delete_eq.
Qed.

Lemma formatTrainee_redacted t :
  Forall redacted (option_list (formatTrainee t)).
Proof.
  destruct (formatTrainee t) as [o|] eqn:Ho; simpl; [|constructor].
  repeat constructor. eapply formatTrainee_no_password, Ho.
Qed.

Lemma formatRoutine_redacted r joined :
  Forall redacted (option_list (RoutineMsg.trainee (formatRoutine r joined))).
Proof.
  destruct joined as [t|]; [apply (formatTrainee_redacted (Some t))|constructor].
Qed.

Lemma formatRegistration_redacted r joined :
  Forall redacted
    (option_list (RegistrationMsg.trainee (formatRegistration r joined))).
Proof.
  destruct joined as [t|]; [apply (formatTrainee_redacted (Some t))|constructor].
Qed.

Lemma omap_redacted {A B} (f : A → B) (g : B → option jsobj) (l : list A) :
  (∀ a, Forall redacted (option_list (g (f a)))) →
  Forall redacted (omap g (map f l)).
Proof.
  intros Hf. induction l as [|a l IH]; simpl; [constructor|].
  specialize (Hf a). destruct (g (f a)); simpl in *; [|done].
  constructor; [by inversion Hf|done].
Qed.

(** C5.  Whatever the state and the request, no trainee object in the
    reply of any handler has a [password] property: the [trainee] of the
    [CreateSession], [CheckSession], [CreateTrainee], [GetTrainee] and
    [UpdateTrainee] replies, the entries of a [ListTrainees] page, and the
    trainee embedded in every routine and registration reply. *)
Theorem replies_carry_no_password now fresh req s :
  Forall (λ o : jsobj, o !! "password" = None)
    (reply_trainees (serve now fresh req s).1).
Proof.
  change (Forall redacted (reply_trainees (serve now fresh req s).1)).
  destruct req; simpl;
    unfold CreateSession, DeleteSession, CheckSession, ListTrainees,
      CreateTrainee, GetTrainee, UpdateTrainee, DeleteTrainee, ListWorkouts,
      CreateWorkout, GetWorkout, UpdateWorkout, DeleteWorkout, ListRoutines,
      CreateRoutine, GetTraineeRoutine, UpdateTraineeRoutine,
      DeleteTraineeRoutine, ListRegistrations, CreateRegistration,
      GetRegistration, UpdateRegistration, DeleteRegistration;
    unfold_handler;
    try (auth_cases token now s; simpl);
    repeat case_match; simplify_eq/=;
    try (by constructor);
    try apply formatTrainee_redacted;
    try apply formatRoutine_redacted;
    try apply formatRegistration_redacted.
  - apply (omap_redacted _ id). intros a. apply formatTrainee_redacted.
  - apply (omap_redacted _ id). intros a. apply formatTrainee_redacted.
  - apply omap_redacted. intros a. apply formatRoutine_redacted.
  - apply omap_redacted. intros a. apply formatRoutine_redacted.
  - apply omap_redacted. intros a. apply formatRegistration_redacted.
Qed.

(** *** Pagination *)


(** *** Lookups and updates in a table *)

Lemma findUnique_Some {R} (key : R → string) v rows r :
  findUnique key v rows = Some r → r ∈ rows ∧ key r = v.
Proof.
  unfold findUnique. intros H. apply find_some in H as [Hin Hk].
  split; [by apply list_elem_of_In|by apply bool_decide_eq_true in Hk].
Qed.

Lemma findUnique_None {R} (key : R → string) v rows :
  findUnique key v rows = None ↔ ∀ r, r ∈ rows → key r ≠ v.
Proof.
  unfold findUnique. split.
  - intros H r Hin Hk. apply list_elem_of_In in Hin.
    pose proof (find_none _ _ H r Hin) as Hf. simpl in Hf.
    by apply bool_decide_eq_false in Hf.
  - intros H. induction rows as [|r rows IH]; simpl; [done|].
    rewrite bool_decide_eq_false_2 by (apply H; left).
    apply IH. intros r' Hr'. apply H. by right.
Qed.

Lemma findUnique_elem {R} (key : R → string) v rows r :
  r ∈ rows → key r = v → is_Some (findUnique key v rows).
Proof.
  intros Hin Hk. destruct (findUnique key v rows) eqn:E; [by eexists|].
  by destruct (proj1 (findUnique_None key v rows) E r Hin).
Qed.




(** *** Duplicate e-mail on [CreateTrainee] *)

(** C7 (amended).  A [CreateTrainee] request whose e-mail is that of a
    stored trainee never changes the state; when its name, e-mail and
    password are all present it is answered [ALREADY_EXISTS] ("Email is
    already in use"). *)
Theorem CreateTrainee_duplicate_email s name email password timezone now fresh
    existing :
  existing ∈ trainee (prisma s) → Trainee.email existing = email →
  (CreateTrainee name email password timezone now fresh s).2 = s
  ∧ (name ≠ "" → email ≠ "" → password ≠ "" →
     CreateTrainee name email password timezone now fresh s
     = (callback_error
          (grpc_error ALREADY_EXISTS "Email is already in use"), s)).
Proof.
  intros Hin Hmail.
  destruct (findUnique_elem Trainee.email email _ existing Hin Hmail)
    as [found Hfound].
  unfold CreateTrainee. unfold_handler. unfold falsy_str. split.
  - repeat case_bool_decide; simpl; try done; by rewrite Hfound.
  - intros Hn He Hp.
    rewrite !bool_decide_eq_false_2 by done. simpl. by rewrite Hfound.
Qed.

(** *** Partial updates *)



Lemma sparse_absent f : f = None ∨ f = Some "" → sparse f = None.
Proof. by intros [->| ->]. Qed.





(** *** Routines of one trainee *)

Lemma count_matches_zero {R} (key : R → string) v (rows : list R) :
  length (filter (λ r, key r = v) rows) = 0 ↔ findFirst key v rows = None.
Proof.
  unfold findFirst. induction rows as [|r rows IH]; simpl; [done|].
  rewrite filter_cons. case_decide as Hk.
  - rewrite bool_decide_eq_true_2 by done. simpl. split; discriminate.
  - by rewrite bool_decide_eq_false_2.
Qed.

Lemma findFirst_updateMany {R} (key : R → string) v (patch : R → R) rows :
  (∀ r, key (patch r) = key r) →
  findFirst key v (updateMany key v patch rows).2
  = patch <$> findFirst key v rows.
Proof.
  intros Hkey. unfold findFirst, updateMany. simpl.
  induction rows as [|r rows IH]; simpl; [done|].
  destruct (decide (key r = v)) as [Hk|Hk].
  - rewrite !(bool_decide_eq_true_2 (key r = v)) by done. simpl.
    by rewrite bool_decide_eq_true_2 by (by rewrite Hkey).
  - rewrite !(bool_decide_eq_false_2 (key r = v)) by done. simpl.
    rewrite ?(bool_decide_eq_false_2 (key r = v)) by done. apply IH.
Qed.

(** C2 (amended).  With an authenticated token, [UpdateTraineeRoutine]
    (given a non-empty [availability]) rewrites the availability, and the
    [updatedAt], of every routine of the trainee, and
    [DeleteTraineeRoutine] removes every routine of the trainee; routines
    of other trainees, their order, and the other tables are left as they
    were.  The update replies with the first routine of the trainee as
    rewritten, the delete with [success]; both answer [NOT_FOUND] when the
    trainee has no routine. *)
Theorem routine_by_trainee_touches_every_match s token now decoded trainee_id
    availability :
  authenticateToken token now s = (inr decoded, s) →
  availability ≠ [] →
  let touched := λ r,
    {| Routine.id := Routine.id r; Routine.userId := Routine.userId r;
       Routine.availability := JSON_stringify availability;
       Routine.createdAt := Routine.createdAt r;
       Routine.updatedAt := now |} in
  let updated := UpdateTraineeRoutine token trainee_id availability now s in
  let deleted := DeleteTraineeRoutine token trainee_id now s in
  ((∀ i : nat,
      routine (prisma updated.2) !! i
      = (λ r, if decide (Routine.userId r = trainee_id) then touched r else r)
          <$> routine (prisma s) !! i)
   ∧ trainee (prisma updated.2) = trainee (prisma s)
   ∧ workout (prisma updated.2) = workout (prisma s)
   ∧ registration (prisma updated.2) = registration (prisma s)
   ∧ updated.1
     = match findFirst Routine.userId trainee_id (routine (prisma s)) with
       | Some first =>
           callback
             (RoutineResponse (routine_with_trainee (prisma s) (touched first)))
       | None => callback_error (grpc_error NOT_FOUND "Routine not found")
       end)
  ∧ ((∀ r, r ∈ routine (prisma deleted.2)
           ↔ r ∈ routine (prisma s) ∧ Routine.userId r ≠ trainee_id)
     ∧ routine (prisma deleted.2) `sublist_of` routine (prisma s)
     ∧ trainee (prisma deleted.2) = trainee (prisma s)
     ∧ workout (prisma deleted.2) = workout (prisma s)
     ∧ registration (prisma deleted.2) = registration (prisma s)
     ∧ deleted.1
       = match findFirst Routine.userId trainee_id (routine (prisma s)) with
         | Some _ => callback (SuccessResponse true)
         | None => callback_error (grpc_error NOT_FOUND "Routine not found")
         end).
Proof.
  intros Hauth Hav touched updated deleted.
  assert (Hlen : bool_decide (length availability = 0) = false).
  { apply bool_decide_eq_false_2. by destruct availability. }
  pose proof (count_matches_zero Routine.userId trainee_id
                (routine (prisma s))) as Hcount.
  split.
  - set (rows' := (updateMany Routine.userId trainee_id touched
                     (routine (prisma s)))).
    assert (Hupd : updated
                   = (match findFirst Routine.userId trainee_id
                              (routine (prisma s)) with
                      | Some first =>
                          callback
                            (RoutineResponse
                               (routine_with_trainee (prisma s)
                                  (touched first)))
                      | None =>
                          callback_error
                            (grpc_error NOT_FOUND "Routine not found")
                      end,
                      {| prisma := with_routine rows'.2 (prisma s);
                         revokedTokens := revokedTokens s |})).
    { unfold updated, UpdateTraineeRoutine. unfold_handler.
      rewrite Hauth. simpl. rewrite Hlen. simpl.
      change (set_availability (JSON_stringify availability) now)
        with touched.
      pose proof (findFirst_updateMany Routine.userId trainee_id touched
                    (routine (prisma s)) (λ _, eq_refl)) as Hfirst.
      simpl in Hfirst. rewrite Hfirst.
      destruct (findFirst Routine.userId trainee_id (routine (prisma s)))
        as [first|] eqn:Hf; simpl.
      - rewrite bool_decide_eq_false_2; [done|].
        intros H0. apply Hcount in H0. congruence.
      - rewrite bool_decide_eq_true_2; [done|]. by apply Hcount. }
    rewrite Hupd. simpl. repeat split.
    intros i. rewrite list_lookup_fmap.
    destruct (routine (prisma s) !! i) as [r|]; simpl; [|done].
    f_equal.
    destruct (decide (Routine.userId r = trainee_id));
      [by rewrite bool_decide_eq_true_2|by rewrite bool_decide_eq_false_2].
  - assert (Hdel : deleted
                   = (match findFirst Routine.userId trainee_id
                              (routine (prisma s)) with
                      | Some _ => callback (SuccessResponse true)
                      | None =>
                          callback_error
                            (grpc_error NOT_FOUND "Routine not found")
                      end,
                      {| prisma :=
                           with_routine
                             (filter (λ r, Routine.userId r ≠ trainee_id)
                                (routine (prisma s))) (prisma s);
                         revokedTokens := revokedTokens s |})).
    { unfold deleted, DeleteTraineeRoutine. unfold_handler.
      rewrite Hauth. simpl.
      destruct (findFirst Routine.userId trainee_id (routine (prisma s)))
        as [first|] eqn:Hf; simpl.
      - rewrite bool_decide_eq_false_2; [done|].
        intros H0. apply Hcount in H0. congruence.
      - rewrite bool_decide_eq_true_2; [done|]. by apply Hcount. }
    rewrite Hdel. simpl.
    split; [|split; [apply sublist_filter|by repeat split]].
    intros r. rewrite list_elem_of_filter. tauto.
Qed.

(** *** Required fields *)

Ltac split_required :=
  repeat (case_bool_decide; simpl in *); simplify_eq/=;
  repeat (case_match; simplify_eq/=);
  try done; try discriminate; try tauto;
  try (intuition (eauto; congruence)).

(** C9 (amended).  A validated operation answers [INVALID_ARGUMENT]
    exactly when a required field is absent and, for the operations that
    take a token, the token has been authenticated first; the message
    lists the required fields of the operation and the state is left
    alone.  Required are: e-mail and password for [CreateSession]; name,
    e-mail and password (not the time zone) for [CreateTrainee]; name and
    a non-zero duration for [CreateWorkout]; the user id and a non-empty
    time-slot array for [CreateRoutine]; a non-empty time-slot array for
    [UpdateTraineeRoutine]; event id, user id, invitee e-mail and start
    time for [CreateRegistration]. *)
Theorem required_fields s now fresh :
  (∀ email password,
     let out := CreateSession email password now s in
     let missing := email = "" ∨ password = "" in
     (missing →
      out = (callback_error
               (grpc_error INVALID_ARGUMENT "Email and password are required"),
             s))
     ∧ (is_invalid_argument out.1 → missing))
  ∧ (∀ name email password timezone,
       let out := CreateTrainee name email password timezone now fresh s in
       let missing := name = "" ∨ email = "" ∨ password = "" in
       (missing →
        out = (callback_error
                 (grpc_error INVALID_ARGUMENT
                    "Name, email, and password are required"), s))
       ∧ (is_invalid_argument out.1 → missing))
  ∧ (∀ token name duration description color,
       let out :=
         CreateWorkout token name duration description color now fresh s in
       let missing := name = "" ∨ duration = 0%Z in
       (authenticates token now s → missing →
        out = (callback_error
                 (grpc_error INVALID_ARGUMENT "Name and duration are required"),
               s))
       ∧ (is_invalid_argument out.1 → authenticates token now s ∧ missing))
  ∧ (∀ token user_id availability,
       let out := CreateRoutine token user_id availability now fresh s in
       let missing := user_id = "" ∨ availability = [] in
       (authenticates token now s → missing →
        out = (callback_error
                 (grpc_error INVALID_ARGUMENT
                    "user_id and availability are required"), s))
       ∧ (is_invalid_argument out.1 → authenticates token now s ∧ missing))
  ∧ (∀ token trainee_id availability,
       let out := UpdateTraineeRoutine token trainee_id availability now s in
       let missing := availability = [] in
       (authenticates token now s → missing →
        out = (callback_error
                 (grpc_error INVALID_ARGUMENT "availability is required"), s))
       ∧ (is_invalid_argument out.1 → authenticates token now s ∧ missing))
  ∧ (∀ token event_id user_id invitee_email start_time end_time status,
       let out :=
         CreateRegistration token event_id user_id invitee_email start_time
           end_time status now fresh s in
       let missing :=
         event_id = "" ∨ user_id = "" ∨ invitee_email = ""
         ∨ start_time = None in
       (authenticates token now s → missing →
        out = (callback_error
                 (grpc_error INVALID_ARGUMENT
                    "event_id, user_id, invitee_email, and start_time are required"),
               s))
       ∧ (is_invalid_argument out.1 → authenticates token now s ∧ missing)).
Proof.
  repeat apply conj; intros; subst out missing;
    unfold CreateSession, CreateTrainee, CreateWorkout, CreateRoutine,
      UpdateTraineeRoutine, CreateRegistration, authenticates;
    unfold_handler; unfold falsy_str, falsy_num.
  1-2: split; intros ?; split_required.
  all: auth_cases token now s; simpl;
    (split; [intros [c Hc] ?|intros ?]); simplify_eq/=.
  all: try (destruct availability; simpl in * ); split_required.
Qed.

(** *** Timestamps *)

(** The specification's wire form round-trips every time value. *)
Lemma spec_timestamp_round_trip (t : Z) : unmarshal_spec (marshal_spec t) = t.
Proof.
  unfold unmarshal_spec, marshal_spec; simpl.
  rewrite Z.div_mul by lia. pose proof (Z.div_mod t 1000). lia.
Qed.

(** From the epoch on, [convertTimestamp] builds that wire form. *)
Lemma convertTimestamp_spec (t : Date) :
  (0 ≤ t)%Z → convertTimestamp (Some t) = Some (marshal_spec t).
Proof.
  intros Ht. unfold convertTimestamp, marshal_spec, js_floor_div, js_rem.
  by rewrite Z.rem_mod_nonneg by lia.
Qed.

(** What the two converters of the source do to a time value, one after
    the other: a time before the epoch that is not a whole second comes
    back one second early. *)
Lemma timestamp_round_trip_code (t : Date) :
  convertFromTimestamp (convertTimestamp (Some t))
  = Some (if decide (t < 0 ∧ t mod 1000 ≠ 0)%Z then (t - 1000)%Z else t).
Proof.
  unfold convertFromTimestamp, convertTimestamp, new_Date_of_quotient,
    js_floor_div, js_rem; simpl. f_equal.
  pose proof (Z.div_mod t 1000 ltac:(lia)) as Hdm.
  pose proof (Z.mod_pos_bound t 1000 ltac:(lia)) as Hb.
  pose proof (Z.quot_rem' t 1000) as Hqr.
  assert (Hnb : (t < 0 → -1000 < Z.rem t 1000 ≤ 0)%Z).
  { intros Hneg. pose proof (Z.rem_bound_pos (- t) 1000 ltac:(lia) ltac:(lia)).
    rewrite Z.rem_opp_l' in *. lia. }
  assert (Hrem : Z.rem t 1000
                 = if decide (t < 0 ∧ t mod 1000 ≠ 0)%Z
                   then (t mod 1000 - 1000)%Z else (t mod 1000)%Z).
  { case_decide as Hc.
    - destruct Hc as [Hneg Hnz]. specialize (Hnb Hneg).
      assert (Hk : (1000 * (t / 1000 - t ÷ 1000)
                    = Z.rem t 1000 - t mod 1000)%Z) by lia.
      lia.
    - destruct (decide (0 ≤ t)%Z) as [Hpos|Hneg].
      + by rewrite Z.rem_mod_nonneg by lia.
      + assert (Hz : (t mod 1000 = 0)%Z) by lia.
        specialize (Hnb ltac:(lia)). lia. }
  rewrite Hrem. case_decide.
  - replace (t / 1000 * 1000 * 1000000 + (t mod 1000 - 1000) * 1000000)%Z
      with ((t - 1000) * 1000000)%Z by lia.
    apply Z.quot_mul; lia.
  - replace (t / 1000 * 1000 * 1000000 + t mod 1000 * 1000000)%Z
      with (t * 1000000)%Z by lia.
    apply Z.quot_mul; lia.
Qed.

Lemma timestamp_round_trip_nonneg (t : Date) :
  (0 ≤ t)%Z → convertFromTimestamp (convertTimestamp (Some t)) = Some t.
Proof.
  intros Ht. rewrite timestamp_round_trip_code.
  by rewrite decide_False by lia.
Qed.

End Properties.

(** ** Further properties of the handlers *)

Section Further.

Context {collab : Collaborators}.

Local Arguments formatTrainee : simpl never.
Local Arguments convertFromTimestamp : simpl never.
Local Arguments convertTimestamp : simpl never.

Ltac unfold_handlers :=
  unfold CreateSession, DeleteSession, CheckSession, ListTrainees,
    CreateTrainee, GetTrainee, UpdateTrainee, DeleteTrainee, ListWorkouts,
    CreateWorkout, GetWorkout, UpdateWorkout, DeleteWorkout, ListRoutines,
    CreateRoutine, GetTraineeRoutine, UpdateTraineeRoutine,
    DeleteTraineeRoutine, ListRegistrations, CreateRegistration,
    GetRegistration, UpdateRegistration, DeleteRegistration;
  unfold try_catch, bind, ret, throw, read_db, write_db, revokedTokens_add.

Ltac auth_split token now s :=
  destruct (authenticateToken_cases token now s)
    as [[? ->]|[(? & ? & ->)|[(? & ? & ? & ->)|(? & ? & ? & ? & ->)]]].

(** *** Calls that leave the state alone *)

Lemma server_eta (s : server) :
  {| prisma := prisma s; revokedTokens := revokedTokens s |} = s.
Proof. by destruct s. Qed.

Lemma with_routine_same (d : db) : with_routine (routine d) d = d.
Proof. by destruct d. Qed.

Lemma updateMany_no_match {R} (key : R → string) v (patch : R → R) rows :
  findFirst key v rows = None → (updateMany key v patch rows).2 = rows.
Proof.
  unfold findFirst, updateMany. simpl.
  induction rows as [|r rows IH]; simpl; [done|].
  case_bool_decide; [done|]. intros Hf. by rewrite IH.
Qed.

Lemma deleteMany_no_match {R} (key : R → string) v (rows : list R) :
  findFirst key v rows = None → (deleteMany key v rows).2 = rows.
Proof.
  unfold findFirst, deleteMany. simpl.
  induction rows as [|r rows IH]; simpl; [done|].
  case_bool_decide as Hk; [done|]. intros Hf.
  rewrite filter_cons_True by done. by rewrite IH.
Qed.

Lemma error_reply_keeps_state now fresh req s e :
  (serve now fresh req s).1 = callback_error e →
  (serve now fresh req s).2 = s.
Proof.
  destruct req; simpl; unfold_handlers;
    try (auth_split token now s; simpl; try done);
    repeat (case_match; simplify_eq/=); try done.
  - intros _. apply bool_decide_eq_true, count_matches_zero in H4.
    pose proof (updateMany_no_match Routine.userId trainee_id
                  (set_availability (JSON_stringify availability) now)
                  _ H4) as Hsame.
    simpl in Hsame. by rewrite Hsame, with_routine_same, server_eta.
  - exfalso.
    match goal with
    | Hf : findFirst _ _ _ = None |- _ =>
        pose proof (findFirst_updateMany Routine.userId trainee_id
                      (set_availability (JSON_stringify availability) now)
                      (routine (prisma s)) (λ _, eq_refl)) as Hfirst;
        simpl in Hfirst; rewrite Hf in Hfirst
    end.
    apply bool_decide_eq_false in H4. apply H4, count_matches_zero.
    by destruct (findFirst Routine.userId trainee_id (routine (prisma s))).
  - intros _. apply bool_decide_eq_true, count_matches_zero in H3.
    pose proof (deleteMany_no_match Routine.userId trainee_id _ H3) as Hsame.
    simpl in Hsame. by rewrite Hsame, with_routine_same, server_eta.
Qed.

(** X2.  A call that is answered with an error has changed nothing:
    neither the database nor the set of revoked tokens. *)
Theorem failed_call_changes_nothing now fresh req s e :
  (serve now fresh req s).1 = callback_error e →
  (serve now fresh req s).2 = s.
Proof. apply error_reply_keeps_state. Qed.

(** X3.  The login, the session check and every [List*] and [Get*] handler
    leave the state exactly as it was, whatever they answer. *)
Theorem read_only_handlers_change_nothing now fresh req s :
  read_only req = true → (serve now fresh req s).2 = s.
Proof.
  destruct req; simpl; try discriminate; intros _; unfold_handlers;
    try (auth_split token now s; simpl; try done);
    repeat (case_match; simplify_eq/=); done.
Qed.

(** *** Authorization is all or nothing *)

(** X4.  Outside the session service no handler looks at who the token
    belongs to: two tokens that both authenticate get the same reply and
    leave the same state, whatever the request and whoever owns the data it
    names. *)
Theorem no_ownership_check now fresh req s t1 t2 :
  authenticates t1 now s → authenticates t2 now s →
  session_request req = false →
  serve now fresh (with_token t1 req) s = serve now fresh (with_token t2 req) s.
Proof.
  intros [c1 H1] [c2 H2] Hreq.
  destruct req; simpl in *; try discriminate; try reflexivity;
    unfold_handlers; by rewrite H1, H2.
Qed.

(** *** Unknown identifiers *)



(** *** Registering, logging in, checking the session *)

Lemma findUnique_app_new {R} (key : R → string) v (rows : list R) r :
  findUnique key v rows = None → key r = v →
  findUnique key v (rows ++ [r]) = Some r.
Proof.
  unfold findUnique. intros Hnone Hk.
  induction rows as [|r0 rows IH]; simpl in *.
  - by rewrite bool_decide_eq_true_2.
  - case_bool_decide; [done|]. by apply IH.
Qed.

Lemma findUnique_app_old {R} (key : R → string) v (rows more : list R) r :
  findUnique key v rows = Some r → findUnique key v (rows ++ more) = Some r.
Proof.
  unfold findUnique. induction rows as [|r0 rows IH]; simpl; [done|].
  by case_bool_decide.
Qed.

Lemma findUnique_NoDup {R} (key : R → string) (rows : list R) r :
  NoDup (map key rows) → r ∈ rows → findUnique key (key r) rows = Some r.
Proof.
  unfold findUnique. induction rows as [|r0 rows IH]; simpl.
  - intros _ Hin. by apply elem_of_nil in Hin.
  - intros [Hnotin Hnd]%NoDup_cons [->|Hin]%elem_of_cons.
    + by rewrite bool_decide_eq_true_2.
    + rewrite bool_decide_eq_false_2; [by apply IH|].
      intros Hk. apply Hnotin. rewrite Hk.
      apply list_elem_of_fmap. by exists r.
Qed.

Lemma authenticates_transfer token now s s' decoded :
  revokedTokens s' = revokedTokens s →
  authenticateToken token now s = (inr decoded, s) →
  authenticateToken token now s' = (inr decoded, s').
Proof.
  intros Hrev. unfold authenticateToken, throw, ret. rewrite Hrev.
  repeat case_match; intros; simplify_eq; done.
Qed.

(** X6.  A trainee created with a new e-mail can log in at once with the
    same e-mail and password: the token is [jwt.sign] of the new id and the
    e-mail, and the reply carries the new trainee.  Any other non-empty
    password is answered [UNAUTHENTICATED] ("Invalid credentials"). *)
Theorem register_then_login s name mail password timezone now fresh now' :
  name ≠ "" → mail ≠ "" → password ≠ "" →
  findUnique Trainee.email mail (trainee (prisma s)) = None →
  let created := CreateTrainee name mail password timezone now fresh s in
  let row :=
    {| Trainee.id := fresh; Trainee.name := name; Trainee.email := mail;
       Trainee.password := password; Trainee.timezone := timezone;
       Trainee.createdAt := now; Trainee.updatedAt := now |} in
  created.1
  = callback (TraineeResponse (formatTrainee (Some (selected_trainee row))))
  ∧ trainee (prisma created.2) = trainee (prisma s) ++ [row]
  ∧ CreateSession mail password now' created.2
    = (callback
         (CreateSessionResponse
            (jwt_sign {| traineeId := fresh; email := mail |} now')
            (formatTrainee (Some (trainee_object row)))), created.2)
  ∧ (∀ wrong, wrong ≠ "" → wrong ≠ password →
       CreateSession mail wrong now' created.2
       = (callback_error (grpc_error UNAUTHENTICATED "Invalid credentials"),
          created.2)).
Proof.
  intros Hn He Hp Hnew created row.
  assert (Hcreated : created
                     = (callback
                          (TraineeResponse
                             (formatTrainee (Some (selected_trainee row)))),
                        {| prisma :=
                             with_trainee (trainee (prisma s) ++ [row])
                               (prisma s);
                           revokedTokens := revokedTokens s |})).
  { unfold created. unfold_handlers. unfold falsy_str.
    rewrite !bool_decide_eq_false_2 by done. simpl. by rewrite Hnew. }
  rewrite Hcreated. simpl. split; [done|]. split; [done|].
  pose proof (findUnique_app_new Trainee.email mail _ row Hnew eq_refl)
    as Hfound.
  split.
  - unfold_handlers. unfold falsy_str.
    rewrite !bool_decide_eq_false_2 by done. simpl. rewrite Hfound. simpl.
    by rewrite bool_decide_eq_true_2.
  - intros wrong Hw Hdiff. unfold_handlers. unfold falsy_str.
    rewrite !bool_decide_eq_false_2 by done. simpl. rewrite Hfound. simpl.
    by rewrite bool_decide_eq_false_2.
Qed.

(** X7.  The token a login hands out opens the session it stands for: if
    [jwt.verify] accepts it, it is not revoked, and trainee ids are unique,
    [CheckSession] answers [authenticated = true] with the very trainee
    object the login returned. *)
Theorem login_then_check s mail password now now' row :
  let decoded :=
    {| traineeId := Trainee.id row; email := Trainee.email row |} in
  let token := jwt_sign decoded now in
  mail ≠ "" → password ≠ "" →
  findUnique Trainee.email mail (trainee (prisma s)) = Some row →
  Trainee.password row = password →
  NoDup (map Trainee.id (trainee (prisma s))) →
  token ≠ "" → token ∉ revokedTokens s →
  jwt_verify token now' = Some decoded →
  CreateSession mail password now s
  = (callback
       (CreateSessionResponse token
          (formatTrainee (Some (trainee_object row)))), s)
  ∧ CheckSession token now' s
    = (callback
         (CheckSessionResponse true
            (formatTrainee (Some (trainee_object row)))), s).
Proof.
  intros decoded token He Hp Hrow Hpw Hnd Hne Hnr Hv. split.
  - unfold_handlers. unfold falsy_str.
    rewrite !bool_decide_eq_false_2 by done. simpl. rewrite Hrow. simpl.
    by rewrite bool_decide_eq_true_2.
  - unfold_handlers.
    auth_split token now' s; simplify_eq/=; try done.
    apply findUnique_Some in Hrow as [Hin _].
    by rewrite (findUnique_NoDup Trainee.id _ row Hnd Hin).
Qed.

(** X8.  [CreateTrainee] never stores a second trainee under an e-mail
    that is taken: if the stored e-mails are pairwise distinct before the
    call, they are after it, whatever the request. *)
Theorem CreateTrainee_keeps_emails_unique s name email password timezone now
    fresh :
  NoDup (map Trainee.email (trainee (prisma s))) →
  NoDup (map Trainee.email
           (trainee (prisma (CreateTrainee name email password timezone now
                               fresh s).2))).
Proof.
  intros Hnd. unfold_handlers.
  repeat (case_match; simplify_eq/=); try done.
  rewrite map_app. apply NoDup_app. split; [done|]. split.
  - intros e Hin [->|[]%elem_of_nil]%elem_of_cons.
    apply list_elem_of_fmap in Hin as (r & Hr & Hin).
    match goal with
    | Hf : findUnique _ _ _ = None |- _ =>
        by apply (proj1 (findUnique_None _ _ _) Hf r Hin)
    end.
  - apply NoDup_singleton.
Qed.

(** *** Create, then get *)


(** X9.  A workout created under an id that was free is what [GetWorkout]
    returns for that id right after, to any authenticated caller: the same
    reply, carrying the fields of the request. *)
Theorem create_workout_then_get s token name duration description color now
    fresh token' now' :
  authenticates token now s → authenticates token' now' s →
  name ≠ "" → duration ≠ 0%Z →
  findUnique Workout.id fresh (workout (prisma s)) = None →
  let created :=
    CreateWorkout token name duration description color now fresh s in
  created.1
  = callback
      (WorkoutResponse
         {| Workout.id := fresh; Workout.name := name;
            Workout.duration := duration;
            Workout.description := description; Workout.color := color;
            Workout.createdAt := now; Workout.updatedAt := now |})
  ∧ GetWorkout token' fresh now' created.2 = (created.1, created.2).
Proof.
  intros [c Hauth] [c' Hauth'] Hn Hd Hfree created.
  set (row := {| Workout.id := fresh; Workout.name := name;
                 Workout.duration := duration;
                 Workout.description := description; Workout.color := color;
                 Workout.createdAt := now; Workout.updatedAt := now |}).
  assert (Hcreated : created
                     = (callback (WorkoutResponse row),
                        {| prisma :=
                             with_workout (workout (prisma s) ++ [row])
                               (prisma s);
                           revokedTokens := revokedTokens s |})).
  { unfold created. unfold_handlers. rewrite Hauth. simpl.
    unfold falsy_str, falsy_num.
    by rewrite !bool_decide_eq_false_2 by done. }
  rewrite Hcreated. simpl. split; [done|].
  unfold_handlers.
  erewrite (authenticates_transfer token' now' s _ c');
    [|reflexivity|exact Hauth']. simpl.
  by rewrite (findUnique_app_new Workout.id fresh _ row Hfree eq_refl).
Qed.

(** X10.  A trainee created under a free id and a new e-mail is what
    [GetTrainee] returns for that id right after, to any authenticated
    caller. *)
Theorem create_trainee_then_get s name mail password timezone now fresh
    token' now' :
  authenticates token' now' s →
  name ≠ "" → mail ≠ "" → password ≠ "" →
  findUnique Trainee.email mail (trainee (prisma s)) = None →
  findUnique Trainee.id fresh (trainee (prisma s)) = None →
  let created := CreateTrainee name mail password timezone now fresh s in
  (∃ t, created.1 = callback (TraineeResponse (Some t))
        ∧ t !! "id" = Some (JStr fresh) ∧ t !! "name" = Some (JStr name)
        ∧ t !! "email" = Some (JStr mail)
        ∧ t !! "timezone" = Some (JStr timezone)
        ∧ t !! "created_at" = Some (JDate now))
  ∧ GetTrainee token' fresh now' created.2 = (created.1, created.2).
Proof.
  intros [c' Hauth'] Hn He Hp Hnew Hfree created.
  set (row := {| Trainee.id := fresh; Trainee.name := name;
                 Trainee.email := mail; Trainee.password := password;
                 Trainee.timezone := timezone;
                 Trainee.createdAt := now; Trainee.updatedAt := now |}).
  assert (Hcreated : created
                     = (callback
                          (TraineeResponse
                             (formatTrainee (Some (selected_trainee row)))),
                        {| prisma :=
                             with_trainee (trainee (prisma s) ++ [row])
                               (prisma s);
                           revokedTokens := revokedTokens s |})).
  { unfold created. unfold_handlers. unfold falsy_str.
    rewrite !bool_decide_eq_false_2 by done. simpl. by rewrite Hnew. }
  rewrite Hcreated. simpl. split.
  - eexists. split; [reflexivity|]. by vm_compute.
  - unfold_handlers.
    erewrite (authenticates_transfer token' now' s _ c');
      [|reflexivity|exact Hauth']. simpl.
    by rewrite (findUnique_app_new Trainee.id fresh _ row Hfree eq_refl).
Qed.


(** X12.  The first routine created for a stored trainee is what
    [GetTraineeRoutine] returns for that trainee right after; when
    [JSON.parse] undoes [JSON.stringify] on the time slots, the reply
    carries them as sent, in the same order. *)
Theorem create_routine_then_get s token user_id availability now fresh
    token' now' owner :
  authenticates token now s → authenticates token' now' s →
  user_id ≠ "" → availability ≠ [] →
  JSON_parse (JSON_stringify availability) = availability →
  findUnique Trainee.id user_id (trainee (prisma s)) = Some owner →
  findFirst Routine.userId user_id (routine (prisma s)) = None →
  let created := CreateRoutine token user_id availability now fresh s in
  (∃ m, created.1 = callback (RoutineResponse m)
        ∧ RoutineMsg.id m = fresh ∧ RoutineMsg.user_id m = user_id
        ∧ RoutineMsg.availability m = availability)
  ∧ GetTraineeRoutine token' user_id now' created.2 = (created.1, created.2).
Proof.
  intros [c Hauth] [c' Hauth'] Hu Hav Hjson Howner Hnone created.
  set (row := {| Routine.id := fresh; Routine.userId := user_id;
                 Routine.availability := JSON_stringify availability;
                 Routine.createdAt := now; Routine.updatedAt := now |}).
  assert (Hcreated : created
                     = (callback
                          (RoutineResponse (routine_with_trainee (prisma s) row)),
                        {| prisma :=
                             with_routine (routine (prisma s) ++ [row])
                               (prisma s);
                           revokedTokens := revokedTokens s |})).
  { unfold created. unfold_handlers. rewrite Hauth. simpl.
    unfold falsy_str. rewrite bool_decide_eq_false_2 by done.
    rewrite bool_decide_eq_false_2 by (by destruct availability). simpl.
    by rewrite Howner. }
  rewrite Hcreated. simpl. split.
  - eexists. split; [reflexivity|]. simpl. by rewrite Hjson.
  - unfold_handlers.
    erewrite (authenticates_transfer token' now' s _ c');
      [|reflexivity|exact Hauth']. simpl.
    pose proof (findUnique_app_new Routine.userId user_id _ row Hnone eq_refl)
      as Hfound.
    change (findFirst Routine.userId user_id (routine (prisma s) ++ [row])
            = Some row) in Hfound.
    by rewrite Hfound.
Qed.

(** *** Delete, then get *)




Lemma findFirst_deleteMany {R} (key : R → string) v (rows : list R) :
  findFirst key v (deleteMany key v rows).2 = None.
Proof.
  apply (proj2 (findUnique_None key v _)). simpl.
  by intros r [Hk _]%list_elem_of_filter.
Qed.

(** X14.  After [DeleteTraineeRoutine] for a trainee, whatever it
    answered, that trainee has no routine: [GetTraineeRoutine], an
    [UpdateTraineeRoutine] with time slots and a second
    [DeleteTraineeRoutine] are all answered [NOT_FOUND] ("Routine not
    found") and change nothing. *)
Theorem routines_gone_after_delete s token now token' now' trainee_id :
  authenticates token now s → authenticates token' now' s →
  let deleted := DeleteTraineeRoutine token trainee_id now s in
  let gone :=
    (callback_error (grpc_error NOT_FOUND "Routine not found"), deleted.2) in
  GetTraineeRoutine token' trainee_id now' deleted.2 = gone
  ∧ (∀ availability, availability ≠ [] →
       UpdateTraineeRoutine token' trainee_id availability now' deleted.2
       = gone)
  ∧ DeleteTraineeRoutine token' trainee_id now' deleted.2 = gone.
Proof.
  intros [c Hauth] [c' Hauth'] deleted gone.
  assert (Hdeleted : deleted.2
                     = {| prisma :=
                            with_routine
                              (deleteMany Routine.userId trainee_id
                                 (routine (prisma s))).2 (prisma s);
                          revokedTokens := revokedTokens s |}).
  { unfold deleted. unfold_handlers. rewrite Hauth. simpl.
    by case_bool_decide. }
  assert (Hauth2 : authenticateToken token' now' deleted.2
                   = (inr c', deleted.2)).
  { apply (authenticates_transfer token' now' s); [|done].
    by rewrite Hdeleted. }
  assert (Hnone : findFirst Routine.userId trainee_id
                    (routine (prisma deleted.2)) = None).
  { rewrite Hdeleted. apply findFirst_deleteMany. }
  assert (Hget : GetTraineeRoutine token' trainee_id now' deleted.2 = gone).
  { unfold_handlers. rewrite Hauth2. simpl. by rewrite Hnone. }
  split; [exact Hget|]. split.
  - intros availability Hav.
    assert (Hr : (UpdateTraineeRoutine token' trainee_id availability now'
                    deleted.2).1
                 = callback_error (grpc_error NOT_FOUND "Routine not found")).
    { unfold_handlers. rewrite Hauth2. simpl.
      rewrite bool_decide_eq_false_2 by (by destruct availability). simpl.
      rewrite bool_decide_eq_true_2; [done|].
      by apply count_matches_zero. }
    pose proof (error_reply_keeps_state now' ""
                  (UpdateTraineeRoutineRequest token' trainee_id availability)
                  deleted.2 _ Hr) as Hs.
    simpl in Hs. unfold gone.
    destruct (UpdateTraineeRoutine _ _ _ _ _) as [r s2]; simpl in *.
    by rewrite Hr, Hs.
  - assert (Hr : (DeleteTraineeRoutine token' trainee_id now' deleted.2).1
                 = callback_error (grpc_error NOT_FOUND "Routine not found")).
    { unfold_handlers. rewrite Hauth2. simpl.
      rewrite bool_decide_eq_true_2; [done|].
      by apply count_matches_zero. }
    pose proof (error_reply_keeps_state now' ""
                  (DeleteTraineeRoutineRequest token' trainee_id)
                  deleted.2 _ Hr) as Hs.
    simpl in Hs. unfold gone.
    destruct (DeleteTraineeRoutine token' _ _ _) as [r s2]; simpl in *.
    by rewrite Hr, Hs.
Qed.

(** *** Lists *)

Lemma insert_desc_perm {R} (at_ : R → Date) r (rows : list R) :
  insert_desc at_ r rows ≡ₚ r :: rows.
Proof.
  induction rows as [|r' rows IH]; simpl; [done|].
  case_match; [done|]. rewrite IH. apply Permutation_swap.
Qed.

Lemma orderBy_desc_perm {R} (at_ : R → Date) (rows : list R) :
  orderBy_desc at_ rows ≡ₚ rows.
Proof.
  unfold orderBy_desc. induction rows as [|r rows IH]; simpl; [done|].
  by rewrite insert_desc_perm, IH.
Qed.

Lemma insert_desc_sorted {R} (at_ : R → Date) r (rows : list R) :
  newest_first at_ rows → newest_first at_ (insert_desc at_ r rows).
Proof.
  unfold newest_first. induction 1 as [|r' rows Hs IH Hhd]; simpl.
  - by repeat constructor.
  - destruct (at_ r' <=? at_ r)%Z eqn:Hle.
    + apply Z.leb_le in Hle. by repeat constructor.
    + apply Z.leb_gt in Hle. constructor; [done|].
      destruct Hhd as [|r'' rows' Hr'']; simpl.
      * constructor. lia.
      * case_match; constructor; [lia|done].
Qed.

Lemma orderBy_desc_sorted {R} (at_ : R → Date) (rows : list R) :
  newest_first at_ (orderBy_desc at_ rows).
Proof.
  unfold orderBy_desc. induction rows as [|r rows IH]; simpl.
  - constructor.
  - by apply insert_desc_sorted.
Qed.

(** X15.  With an authenticated token, [ListWorkouts] returns every stored
    workout exactly once, and [ListRegistrations] one message for every
    stored registration, newest ([createdAt]) first; nothing is changed. *)
Theorem lists_are_complete_and_newest_first s token now :
  authenticates token now s →
  (∃ workouts,
     ListWorkouts token now s = (callback (ListWorkoutsResponse workouts), s)
     ∧ workouts ≡ₚ workout (prisma s)
     ∧ newest_first Workout.createdAt workouts)
  ∧ (∃ rows,
       ListRegistrations token now s
       = (callback
            (ListRegistrationsResponse
               (map (registration_with_trainee (prisma s)) rows)), s)
       ∧ rows ≡ₚ registration (prisma s)
       ∧ newest_first Registration.createdAt rows).
Proof.
  intros [c Hauth]. split.
  - exists (orderBy_desc Workout.createdAt (workout (prisma s))).
    split; [|split; [apply orderBy_desc_perm|apply orderBy_desc_sorted]].
    unfold_handlers. by rewrite Hauth.
  - exists (orderBy_desc Registration.createdAt (registration (prisma s))).
    split; [|split; [apply orderBy_desc_perm|apply orderBy_desc_sorted]].
    unfold_handlers. by rewrite Hauth.
Qed.

(** X16.  [ListRoutines] with a non-empty [trainee_id] returns the
    routines of that trainee and no other; with [trainee_id] absent or
    empty it returns all routines.  Either way every routine it covers
    appears once, newest first. *)
Theorem ListRoutines_filter s token now trainee_id :
  authenticates token now s →
  ∃ rows,
    ListRoutines token trainee_id now s
    = (callback
         (ListRoutinesResponse (map (routine_with_trainee (prisma s)) rows)),
       s)
    ∧ newest_first Routine.createdAt rows
    ∧ (trainee_id = None ∨ trainee_id = Some "" → rows ≡ₚ routine (prisma s))
    ∧ (∀ id, trainee_id = Some id → id ≠ "" →
         rows ≡ₚ filter (λ r, Routine.userId r = id) (routine (prisma s))
         ∧ ∀ m, m ∈ map (routine_with_trainee (prisma s)) rows →
                RoutineMsg.user_id m = id).
Proof.
  intros [c Hauth].
  exists (orderBy_desc Routine.createdAt
            match sparse trainee_id with
            | Some id => filter (λ r, Routine.userId r = id) (routine (prisma s))
            | None => routine (prisma s)
            end).
  split; [|split; [apply orderBy_desc_sorted|split]].
  - unfold_handlers. by rewrite Hauth.
  - intros Habsent. rewrite (sparse_absent _ Habsent).
    apply orderBy_desc_perm.
  - intros id -> Hid. simpl. rewrite bool_decide_eq_false_2 by done.
    split; [apply orderBy_desc_perm|].
    intros m (r & -> & Hr)%list_elem_of_fmap. simpl.
    rewrite orderBy_desc_perm in Hr.
    by apply list_elem_of_filter in Hr as [Hr _].
Qed.



(** *** Logout *)

(** X1.  A successful [DeleteSession] is final for its token: in every
    later state the token is still in [revokedTokens], [authenticateToken]
    throws "Token is revoked" whatever [jwt.verify] says, and every handler
    that takes the token answers with an error and changes nothing
    ([UNAUTHENTICATED], or [INTERNAL] from the four handlers that replace
    the error). *)
Theorem logout_is_final s token now s' s'' :
  DeleteSession token now s
  = (callback (DeleteSessionResponse "Successfully logged out"), s') →
  later_than s' s'' →
  token ∈ revokedTokens s''
  ∧ (∀ now', authenticateToken token now' s'' = (inl RevokedToken, s''))
  ∧ (∀ now' fresh req, token_of req = Some token →
       ∃ e, serve now' fresh req s'' = (callback_error e, s'')
            ∧ (e = RevokedToken ∨ e = internal_error)).
Proof.
  intros Hout Hlater.
  destruct (DeleteSession_revokes _ _ _ _ Hout) as [Hne Hin].
  split; [by apply Hin|]. split.
  - intros now'. apply authenticateToken_revoked; [done|by apply Hin].
  - intros now' fresh req Htok.
    rewrite (after_logout_rejected _ _ _ _ _ now' fresh req Hout Hlater Htok).
    eexists. split; [reflexivity|]. case_match; auto.
Qed.

(** *** The trainee objects of the replies *)

(** X18.  The two ways a trainee leaves the server give the same object:
    the full row stripped by [formatTrainee] (login, session check) and the
    row read with the [select] of the trainee handlers.  It has the
    properties [id], [name], [email], [timezone], [createdAt], [updatedAt],
    [created_at] and [updated_at]; the trainee embedded in a routine or a
    registration is that object without [timezone]. *)
Theorem trainee_objects_agree (r : Trainee.t) :
  formatTrainee (Some (trainee_object r))
  = formatTrainee (Some (selected_trainee r))
  ∧ formatTrainee (Some (selected_trainee r))
    = Some (list_to_map
              [ ("id", JStr (Trainee.id r)); ("name", JStr (Trainee.name r));
                ("email", JStr (Trainee.email r));
                ("timezone", JStr (Trainee.timezone r));
                ("createdAt", JDate (Trainee.createdAt r));
                ("updatedAt", JDate (Trainee.updatedAt r));
                ("created_at", JDate (Trainee.createdAt r));
                ("updated_at", JDate (Trainee.updatedAt r)) ])
  ∧ formatTrainee (Some (select include_trainee_select (trainee_object r)))
    = delete "timezone" <$> formatTrainee (Some (selected_trainee r)).
Proof. destruct r. by vm_compute. Qed.

(** *** Time stamps *)

(** X19.  A [Date] survives [convertTimestamp] followed by
    [convertFromTimestamp] exactly when it is not before the epoch or is a
    whole second; from the epoch on the wire form is well formed
    ([nanos] a whole number of milliseconds below one second). *)
Theorem timestamp_round_trip_exactly_when (t : Date) :
  (convertFromTimestamp (convertTimestamp (Some t)) = Some t
   ↔ (0 ≤ t ∨ t mod 1000 = 0)%Z)
  ∧ ((0 ≤ t)%Z →
     ∃ ts, convertTimestamp (Some t) = Some ts
           ∧ (0 ≤ seconds ts)%Z ∧ (0 ≤ nanos ts < 1000000000)%Z
           ∧ (nanos ts mod 1000000 = 0)%Z
           ∧ (seconds ts * 1000 + nanos ts / 1000000 = t)%Z).
Proof.
  split.
  - rewrite timestamp_round_trip_code. case_decide as Hc; split.
    + intros [= Heq]. lia.
    + lia.
    + lia.
    + done.
  - intros Ht. rewrite convertTimestamp_spec by done.
    eexists. split; [reflexivity|]. unfold marshal_spec. simpl.
    pose proof (Z.div_mod t 1000 ltac:(lia)).
    pose proof (Z.mod_pos_bound t 1000 ltac:(lia)).
    pose proof (Z.div_pos t 1000 Ht ltac:(lia)).
    rewrite Z.mod_mul, Z.div_mul by lia. lia.
Qed.


(** *** The client *)

Ltac unfold_client :=
  unfold deleteSession, checkSession, listTrainees, createWorkout,
    listWorkouts, createRoutine, createRegistration, createSession,
    createTrainee, promisify, wire_string.

Lemma authenticateToken_missing now s :
  authenticateToken "" now s = (inl MissingToken, s).
Proof. done. Qed.

(** X21.  When [deleteSession] of the client resolves, the client has
    forgotten its token and the server has revoked it; from then on every
    method of the client that sends the token is rejected with
    [UNAUTHENTICATED] "Authorization token missing", whatever the state of
    the server, and changes nothing. *)
Theorem client_logout now this sv r this' sv' :
  deleteSession now this sv = (resolved r, this', sv') →
  this_token this' = None
  ∧ (∃ token, this_token this = Some token ∧ token ∈ revokedTokens sv')
  ∧ ∀ now' fresh sv'',
      let turned_away := (rejected MissingToken, this', sv'') in
      deleteSession now' this' sv'' = turned_away
      ∧ checkSession now' this' sv'' = turned_away
      ∧ (∀ page pageSize,
           listTrainees page pageSize now' this' sv'' = turned_away)
      ∧ (∀ name duration description color,
           createWorkout name duration description color now' fresh this' sv''
           = turned_away)
      ∧ listWorkouts now' this' sv'' = turned_away
      ∧ (∀ userId availability,
           createRoutine userId availability now' fresh this' sv''
           = turned_away)
      ∧ (∀ eventId userId inviteeEmail startTime endTime status,
           createRegistration eventId userId inviteeEmail startTime endTime
             status now' fresh this' sv'' = turned_away).
Proof.
  unfold deleteSession, promisify.
  destruct (DeleteSession (wire_string (this_token this)) now sv)
    as [[e|resp] sv1] eqn:Hout; [done|].
  intros [= <- <- <-].
  split; [done|]. split.
  - revert Hout. unfold_handlers.
    auth_split (wire_string (this_token this)) now sv; simpl; try done.
    intros [= <- <-].
    destruct (this_token this) as [token|]; [|done].
    exists token. split; [done|]. simpl. set_solver.
  - intros now' fresh sv''. simpl.
    repeat split; intros; unfold_client; simpl; unfold_handlers;
      by rewrite authenticateToken_missing.
Qed.

(** X22.  [createTrainee] of the client never fails on a taken e-mail:
    with name, e-mail and password given and the e-mail already stored it
    resolves with [null] and changes nothing; so repeating a call that
    created a trainee resolves with [null]. *)
Theorem client_createTrainee_again name mail password timezone this sv :
  (∀ existing now fresh,
     name ≠ "" → mail ≠ "" → password ≠ "" →
     existing ∈ trainee (prisma sv) → Trainee.email existing = mail →
     createTrainee name mail password timezone now fresh this sv
     = (resolved None, this, sv))
  ∧ (∀ now fresh first this1 sv1 now' fresh',
       createTrainee name mail password timezone now fresh this sv
       = (resolved (Some first), this1, sv1) →
       createTrainee name mail password timezone now' fresh' this1 sv1
       = (resolved None, this1, sv1)).
Proof.
  assert (Htaken : ∀ sv0 this0 existing now fresh,
            name ≠ "" → mail ≠ "" → password ≠ "" →
            existing ∈ trainee (prisma sv0) → Trainee.email existing = mail →
            createTrainee name mail password timezone now fresh this0 sv0
            = (resolved None, this0, sv0)).
  { intros sv0 this0 existing now fresh Hn He Hp Hin Hmail.
    destruct (findUnique_elem Trainee.email mail _ existing Hin Hmail)
      as [found Hfound].
    unfold createTrainee, promisify. unfold_handlers. unfold falsy_str.
    rewrite !bool_decide_eq_false_2 by done. simpl. by rewrite Hfound. }
  split; [apply Htaken|].
  intros now fresh first this1 sv1 now' fresh'.
  unfold createTrainee at 1. unfold promisify. unfold_handlers.
  unfold falsy_str.
  repeat (case_bool_decide; simpl); try done.
  destruct (findUnique Trainee.email mail (trainee (prisma sv)))
    eqn:Hnew; simpl; [done|].
  intros [= <- <- <-].
  apply (Htaken _ _ {| Trainee.id := fresh; Trainee.name := name;
                       Trainee.email := mail; Trainee.password := password;
                       Trainee.timezone := timezone;
                       Trainee.createdAt := now;
                       Trainee.updatedAt := now |}); try done.
  simpl. apply elem_of_app. right. by left.
Qed.

(** X23.  A registration the client creates for a time not before the
    epoch is stored with exactly that start time (and end time, when
    given), and the reply carries their wire form. *)
Theorem client_createRegistration_keeps_times eventId userId inviteeEmail
    startTime endTime status now fresh this sv token owner :
  this_token this = Some token → authenticates token now sv →
  eventId ≠ "" → userId ≠ "" → inviteeEmail ≠ "" →
  findUnique Trainee.id userId (trainee (prisma sv)) = Some owner →
  (0 ≤ startTime)%Z → (∀ e, endTime = Some e → (0 ≤ e)%Z) →
  ∃ m row sv',
    createRegistration eventId userId inviteeEmail startTime endTime status
      now fresh this sv
    = (resolved (Some (RegistrationResponse m)), this, sv')
    ∧ registration (prisma sv') = registration (prisma sv) ++ [row]
    ∧ Registration.startTime row = Some startTime
    ∧ Registration.endTime row = endTime
    ∧ RegistrationMsg.start_time m = Some (createTimestamp startTime)
    ∧ RegistrationMsg.end_time m = createTimestamp <$> endTime.
Proof.
  intros Htok [c Hauth] He Hu Hi Howner Hstart Hend.
  unfold createRegistration, promisify, wire_string. rewrite Htok. simpl.
  unfold_handlers. rewrite Hauth. simpl. unfold falsy_str.
  rewrite !bool_decide_eq_false_2 by done. simpl. rewrite Howner. simpl.
  do 3 eexists. split; [reflexivity|]. simpl. split; [reflexivity|].
  change (Some (createTimestamp startTime))
    with (convertTimestamp (Some startTime)).
  rewrite !timestamp_round_trip_nonneg by done.
  split; [done|].
  destruct endTime as [e|]; simpl; [|done].
  change (Some (createTimestamp e)) with (convertTimestamp (Some e)).
  by rewrite !timestamp_round_trip_nonneg by eauto.
Qed.

End Further.

(** ** The handlers at work on the scenarios *)

Section Scenarios.

Local Open Scope Z_scope.

Import Demo.

(** Settles a decidable statement about a concrete state by running its
    decision procedure. *)
Ltac by_running := apply (bool_decide_unpack _); vm_compute; exact I.



(** Trainee A is deleted while logged in: the session check finds no
    trainee behind the token. *)
Lemma CheckSession_unknown_trainee_witness :
  token_A ≠ "" ∧ (token_A ∉ revokedTokens orphaned)
  ∧ jwt_verify token_A 4000 = Some {| traineeId := "t1"; email := "a@x.com" |}
  ∧ findUnique Trainee.id "t1" (trainee (prisma orphaned)) = None
  ∧ CheckSession token_A 4000 orphaned
    = (callback_error (grpc_error NOT_FOUND "Trainee not found"), orphaned).
Proof.
  assert (H1 : token_A ≠ "") by discriminate.
  assert (H2 : token_A ∉ revokedTokens orphaned)
    by by_running.
  assert (H3 : jwt_verify token_A 4000
               = Some {| traineeId := "t1"; email := "a@x.com" |})
    by reflexivity.
  assert (H4 : findUnique Trainee.id "t1" (trainee (prisma orphaned)) = None)
    by (vm_compute; reflexivity).
  split; [exact H1|]. split; [exact H2|]. split; [exact H3|].
  split; [exact H4|].
  exact (CheckSession_unknown_trainee orphaned token_A 4000 _ H1 H2 H3 H4).
Defined.


(** A duplicate e-mail with every required field present. *)
Lemma CreateTrainee_duplicate_email_witness :
  trainee_A ∈ trainee (prisma registered)
  ∧ CreateTrainee "A again" "a@x.com" "other" "UTC" 4000 "t2" registered
    = (callback_error (grpc_error ALREADY_EXISTS "Email is already in use"),
       registered).
Proof.
  assert (Hin : trainee_A ∈ trainee (prisma registered)) by (by left).
  split; [exact Hin|].
  exact (proj2 (CreateTrainee_duplicate_email registered "A again" "a@x.com"
                  "other" "UTC" 4000 "t2" trainee_A Hin eq_refl)
           ltac:(discriminate) ltac:(discriminate) ltac:(discriminate)).
Defined.

(** C7, as stated, fails: with the name missing, a request that carries
    the e-mail of stored trainee A is answered [INVALID_ARGUMENT], not
    [ALREADY_EXISTS]. *)
Lemma duplicate_email_missing_name :
  trainee_A ∈ trainee (prisma registered)
  ∧ Trainee.email trainee_A = "a@x.com"
  ∧ CreateTrainee "" "a@x.com" "pw" "UTC" 4000 "t2" registered
    = (callback_error
         (grpc_error INVALID_ARGUMENT "Name, email, and password are required"),
       registered)
  ∧ (CreateTrainee "" "a@x.com" "pw" "UTC" 4000 "t2" registered).1
    ≠ callback_error (grpc_error ALREADY_EXISTS "Email is already in use").
Proof.
  split; [by left|]. split; [reflexivity|]. split; [reflexivity|].
  discriminate.
Qed.

(** The second routine of trainee A in [two_routines]. *)
Lemma routines_of_two_routines :
  routine (prisma two_routines)
  = [ {| Routine.id := "r1"; Routine.userId := "t1";
         Routine.availability := "*";
         Routine.createdAt := 2100; Routine.updatedAt := 2100 |};
      {| Routine.id := "r2"; Routine.userId := "t1";
         Routine.availability := "**";
         Routine.createdAt := 2200; Routine.updatedAt := 2200 |};
      {| Routine.id := "r3"; Routine.userId := "t2";
         Routine.availability := "*";
         Routine.createdAt := 2300; Routine.updatedAt := 2300 |} ].
Proof. reflexivity. Qed.

(** Both routines of trainee A are rewritten, and both are deleted. *)
Lemma routine_by_trainee_touches_every_match_witness :
  authenticateToken token_A 4000 two_routines = (inr claims_A, two_routines)
  ∧ [slot; slot; slot] ≠ []
  ∧ routine (prisma (UpdateTraineeRoutine token_A "t1" [slot; slot; slot]
                       4000 two_routines).2) !! 1%nat
    = Some {| Routine.id := "r2"; Routine.userId := "t1";
              Routine.availability := "***";
              Routine.createdAt := 2200; Routine.updatedAt := 4000 |}
  ∧ (∀ r, r ∈ routine (prisma (DeleteTraineeRoutine token_A "t1" 4000
                                  two_routines).2)
          ↔ r ∈ routine (prisma two_routines) ∧ Routine.userId r ≠ "t1").
Proof.
  assert (Hauth : authenticateToken token_A 4000 two_routines
                  = (inr claims_A, two_routines)) by reflexivity.
  assert (Hav : [slot; slot; slot] ≠ []) by discriminate.
  split; [exact Hauth|]. split; [exact Hav|].
  destruct (routine_by_trainee_touches_every_match two_routines token_A 4000
              claims_A "t1" [slot; slot; slot] Hauth Hav)
    as [(Hupd & _) (Hdel & _)].
  split; [|exact Hdel].
  rewrite Hupd. reflexivity.
Defined.

(** C2, as stated, fails: the second routine of trainee A is not the first
    match, yet [UpdateTraineeRoutine] rewrites it and
    [DeleteTraineeRoutine] removes it. *)
Lemma first_match_semantics_fails :
  ¬ only_first_match_touched "t1" (routine (prisma two_routines))
      (routine (prisma (UpdateTraineeRoutine token_A "t1" [slot; slot; slot]
                          4000 two_routines).2))
  ∧ ¬ only_first_match_touched "t1" (routine (prisma two_routines))
        (routine (prisma (DeleteTraineeRoutine token_A "t1" 4000
                            two_routines).2)).
Proof.
  set (second := {| Routine.id := "r2"; Routine.userId := "t1";
                    Routine.availability := "**";
                    Routine.createdAt := 2200; Routine.updatedAt := 2200 |}).
  assert (Hin : second ∈ routine (prisma two_routines)) by by_running.
  assert (Hnf : findFirst Routine.userId "t1" (routine (prisma two_routines))
                ≠ Some second) by (vm_compute; discriminate).
  split; intros Hclaim; specialize (Hclaim second Hin Hnf);
    revert Hclaim; by_running.
Qed.


(** C9, as stated, fails twice over: [CreateRoutine] answers
    [INVALID_ARGUMENT] for a request whose time-slot array is not empty
    (its [user_id] is), and [CreateWorkout] answers [UNAUTHENTICATED], not
    [INVALID_ARGUMENT], for a request that lacks name, duration and
    token. *)
Lemma required_fields_as_stated_fails :
  (authenticates token_A 4000 logged_in ∧ [slot] ≠ []
   ∧ CreateRoutine token_A "" [slot] 4000 "r9" logged_in
     = (callback_error
          (grpc_error INVALID_ARGUMENT "user_id and availability are required"),
        logged_in))
  ∧ CreateWorkout "" "" 0 "" "" 4000 "w9" logged_in
    = (callback_error MissingToken, logged_in)
  ∧ ¬ is_invalid_argument
        (CreateWorkout "" "" 0 "" "" 4000 "w9" logged_in).1.
Proof.
  split; [split; [by exists claims_A|split; [discriminate|reflexivity]]|].
  split; [reflexivity|]. simpl. discriminate.
Qed.

(** C1, at the failing input: the token of trainee A has been revoked by
    logout and is still accepted by [jwt.verify]; [CheckSession] turns it
    away with [UNAUTHENTICATED], but the four update handlers answer
    [INTERNAL]. *)
Theorem revoked_token_update_handlers_internal :
  DeleteSession token_A 3000 logged_in
  = (callback (DeleteSessionResponse "Successfully logged out"), logged_out)
  ∧ token_A ∈ revokedTokens logged_out
  ∧ jwt_verify token_A 4000 = Some claims_A
  ∧ CheckSession token_A 4000 logged_out
    = (callback_error RevokedToken, logged_out)
  ∧ UpdateTrainee token_A "t1" (Some "B") None None None 4000 logged_out
    = (callback_error internal_error, logged_out)
  ∧ UpdateWorkout token_A "w1" (Some "Yoga") None None None 4000 logged_out
    = (callback_error internal_error, logged_out)
  ∧ UpdateTraineeRoutine token_A "t1" [slot] 4000 logged_out
    = (callback_error internal_error, logged_out)
  ∧ UpdateRegistration token_A "g1" None None None None None
      (Some "cancelled") 4000 logged_out
    = (callback_error internal_error, logged_out)
  ∧ code internal_error ≠ Status UNAUTHENTICATED.
Proof.
  assert (Hin : token_A ∈ revokedTokens logged_out) by by_running.
  assert (Hne : token_A ≠ "") by discriminate.
  split; [reflexivity|]. split; [exact Hin|]. split; [reflexivity|].
  split; [exact (revoked_token_rejected 4000 ""
                   (CheckSessionRequest token_A) _ _ Hne Hin eq_refl)|].
  split; [exact (revoked_token_rejected 4000 ""
                   (UpdateTraineeRequest token_A "t1" (Some "B") None None
                      None) _ _ Hne Hin eq_refl)|].
  split; [exact (revoked_token_rejected 4000 ""
                   (UpdateWorkoutRequest token_A "w1" (Some "Yoga") None None
                      None) _ _ Hne Hin eq_refl)|].
  split; [exact (revoked_token_rejected 4000 ""
                   (UpdateTraineeRoutineRequest token_A "t1" [slot])
                   _ _ Hne Hin eq_refl)|].
  split; [exact (revoked_token_rejected 4000 ""
                   (UpdateRegistrationRequest token_A "g1" None None None
                      None None (Some "cancelled")) _ _ Hne Hin eq_refl)|].
  discriminate.
Qed.

(** C3, at the failing input: the time value -1 (the last millisecond of
    1969) is marshalled to [seconds = -1], [nanos = -1000000] and comes
    back as -1001, where the wire form of the specification gives
    [nanos = 999000000] and comes back as -1. *)
Theorem timestamp_before_epoch_comes_back_early :
  convertTimestamp (Some (-1)) = Some {| seconds := -1; nanos := -1000000 |}
  ∧ convertFromTimestamp (convertTimestamp (Some (-1))) = Some (-1001)
  ∧ convertFromTimestamp (Some (createTimestamp (-1))) = Some (-1001)
  ∧ marshal_spec (-1) = {| seconds := -1; nanos := 999000000 |}
  ∧ unmarshal_spec (marshal_spec (-1)) = -1.
Proof. repeat split. Qed.

(** The login reply for trainee A: the row read from the table has a
    [password], the trainee of the reply has the other columns only. *)
Lemma CreateSession_reply_redacted :
  trainee_object trainee_A !! "password" = Some (JStr "pw")
  ∧ ∃ o, (CreateSession "a@x.com" "pw" 2000 registered).1
         = callback (CreateSessionResponse token_A (Some o))
         ∧ o !! "email" = Some (JStr "a@x.com")
         ∧ o !! "created_at" = Some (JDate 1000)
         ∧ o !! "password" = None.
Proof.
  split; [by vm_compute|].
  eexists. split; [reflexivity|]. by vm_compute.
Qed.

End Scenarios.

(** ** The further properties on the scenarios *)

Section FurtherScenarios.

Local Open Scope Z_scope.

Import Demo Second.

Ltac by_running := apply (bool_decide_unpack _); vm_compute; exact I.

Lemma authenticates_A (s : server) :
  revokedTokens s = ∅ → authenticates token_A 4000 s.
Proof.
  intros Hrev. exists claims_A. unfold authenticateToken. simpl.
  rewrite Hrev. reflexivity.
Defined.

Lemma authenticates_B (s : server) :
  revokedTokens s = ∅ → authenticates token_B 4000 s.
Proof.
  intros Hrev. exists claims_B.
  unfold authenticateToken. simpl. rewrite Hrev. reflexivity.
Defined.

Lemma logout_is_final_witness :
  DeleteSession token_A 3000 logged_in
  = (callback (DeleteSessionResponse "Successfully logged out"), logged_out)
  ∧ ∃ e, GetTrainee token_A "t1" 5000
           (serve 4000 "t3" (CreateTraineeRequest "C" "c@x.com" "pw" "")
              logged_out).2
         = (callback_error e,
            (serve 4000 "t3" (CreateTraineeRequest "C" "c@x.com" "pw" "")
               logged_out).2)
         ∧ (e = RevokedToken ∨ e = internal_error).
Proof.
  assert (Hout : DeleteSession token_A 3000 logged_in
                 = (callback (DeleteSessionResponse "Successfully logged out"),
                    logged_out)) by reflexivity.
  split; [exact Hout|].
  exact (proj2 (proj2 (logout_is_final logged_in token_A 3000 logged_out _
                         Hout
                         (later_serve _ _ 4000 "t3"
                            (CreateTraineeRequest "C" "c@x.com" "pw" "")
                            (later_refl _))))
           5000 "" (GetTraineeRequest token_A "t1") eq_refl).
Defined.

Lemma failed_call_changes_nothing_witness :
  (serve 4000 "" (DeleteWorkoutRequest token_A "w9") stocked).1
  = callback_error (grpc_error NOT_FOUND "Workout not found")
  ∧ (serve 4000 "" (DeleteWorkoutRequest token_A "w9") stocked).2 = stocked.
Proof.
  assert (Hr : (serve 4000 "" (DeleteWorkoutRequest token_A "w9") stocked).1
               = callback_error (grpc_error NOT_FOUND "Workout not found"))
    by reflexivity.
  split; [exact Hr|].
  exact (failed_call_changes_nothing 4000 "" _ stocked _ Hr).
Defined.

Lemma read_only_handlers_change_nothing_witness :
  (serve 4000 "" (ListRoutinesRequest token_A None) two_routines).2
  = two_routines.
Proof.
  exact (read_only_handlers_change_nothing 4000 ""
           (ListRoutinesRequest token_A None) two_routines eq_refl).
Defined.

(** Trainee B, with a token of their own, renames trainee A. *)
Lemma no_ownership_check_witness :
  authenticates token_A 4000 stocked ∧ authenticates token_B 4000 stocked
  ∧ UpdateTrainee token_B "t1" (Some "renamed") None None None 4000 stocked
    = UpdateTrainee token_A "t1" (Some "renamed") None None None 4000 stocked.
Proof.
  pose proof (authenticates_A stocked eq_refl) as HA.
  pose proof (authenticates_B stocked eq_refl) as HB.
  split; [exact HA|]. split; [exact HB|].
  exact (no_ownership_check 4000 ""
           (UpdateTraineeRequest "" "t1" (Some "renamed") None None None)
           stocked token_B token_A HB HA eq_refl).
Defined.


Lemma register_then_login_witness :
  CreateSession "a@x.com" "pw" 2000
    (CreateTrainee "A" "a@x.com" "pw" "UTC" 1000 "t1" start).2
  = (callback
       (CreateSessionResponse token_A
          (formatTrainee (Some (trainee_object trainee_A)))),
     (CreateTrainee "A" "a@x.com" "pw" "UTC" 1000 "t1" start).2).
Proof.
  exact (proj1 (proj2 (proj2
           (register_then_login start "A" "a@x.com" "pw" "UTC" 1000 "t1" 2000
              ltac:(discriminate) ltac:(discriminate) ltac:(discriminate)
              eq_refl)))).
Defined.

Lemma login_then_check_witness :
  CheckSession token_A 2500 registered
  = (callback
       (CheckSessionResponse true
          (formatTrainee (Some (trainee_object trainee_A)))), registered).
Proof.
  assert (Hnd : NoDup (map Trainee.id (trainee (prisma registered))))
    by by_running.
  assert (Hnr : token_A ∉ revokedTokens registered) by by_running.
  exact (proj2 (login_then_check registered "a@x.com" "pw" 2000 2500
                  trainee_A ltac:(discriminate) ltac:(discriminate)
                  eq_refl eq_refl Hnd ltac:(discriminate) Hnr eq_refl)).
Defined.

Lemma CreateTrainee_keeps_emails_unique_witness :
  NoDup (map Trainee.email (trainee (prisma registered)))
  ∧ NoDup (map Trainee.email
             (trainee (prisma (CreateTrainee "A again" "a@x.com" "x" "" 4000
                                 "t2" registered).2))).
Proof.
  assert (Hnd : NoDup (map Trainee.email (trainee (prisma registered))))
    by by_running.
  split; [exact Hnd|].
  exact (CreateTrainee_keeps_emails_unique registered "A again" "a@x.com" "x"
           "" 4000 "t2" Hnd).
Defined.

Lemma create_workout_then_get_witness :
  GetWorkout token_B "w1" 4000
    (CreateWorkout token_A "HIIT Training" 45 "intervals" "#FF5733" 4000 "w1"
       logged_in).2
  = CreateWorkout token_A "HIIT Training" 45 "intervals" "#FF5733" 4000 "w1"
      logged_in.
Proof.
  pose proof (create_workout_then_get logged_in token_A "HIIT Training" 45
                "intervals" "#FF5733" 4000 "w1" token_B 4000
                (authenticates_A logged_in eq_refl)
                (authenticates_B logged_in eq_refl)
                ltac:(discriminate) ltac:(discriminate) eq_refl) as [_ Hget].
  rewrite Hget. by destruct (CreateWorkout _ _ _ _ _ _ _ _).
Defined.

Lemma create_trainee_then_get_witness :
  GetTrainee token_A "t2" 4000
    (CreateTrainee "B" "b@x.com" "pw" "UTC" 4000 "t2" logged_in).2
  = CreateTrainee "B" "b@x.com" "pw" "UTC" 4000 "t2" logged_in.
Proof.
  pose proof (create_trainee_then_get logged_in "B" "b@x.com" "pw" "UTC" 4000
                "t2" token_A 4000 (authenticates_A logged_in eq_refl)
                ltac:(discriminate) ltac:(discriminate) ltac:(discriminate)
                eq_refl eq_refl) as [_ Hget].
  rewrite Hget. by destruct (CreateTrainee _ _ _ _ _ _ _).
Defined.


(** With the stand-in that reads its blobs back. *)
Lemma create_routine_then_get_witness :
  JSON_parse (Collaborators := Echo.collaborators)
    (JSON_stringify (Collaborators := Echo.collaborators) [slot; slot])
  = [slot; slot]
  ∧ ∃ m, (CreateRoutine (collab := Echo.collaborators) token_A "t1"
            [slot; slot] 4000 "r1" logged_in).1
         = callback (RoutineResponse m)
         ∧ RoutineMsg.availability m = [slot; slot].
Proof.
  split; [reflexivity|].
  destruct (create_routine_then_get (collab := Echo.collaborators) logged_in
              token_A "t1" [slot; slot] 4000 "r1" token_B 4000 trainee_A
              (ex_intro _ claims_A eq_refl)
              (ex_intro _ claims_B eq_refl)
              ltac:(discriminate) ltac:(discriminate) eq_refl eq_refl eq_refl)
    as [(m & Hm & _ & _ & Hav) _].
  exists m. split; [exact Hm|exact Hav].
Defined.


Lemma routines_gone_after_delete_witness :
  GetTraineeRoutine token_B "t1" 5000
    (DeleteTraineeRoutine token_A "t1" 4000 two_routines).2
  = (callback_error (grpc_error NOT_FOUND "Routine not found"),
     (DeleteTraineeRoutine token_A "t1" 4000 two_routines).2).
Proof.
  exact (proj1 (routines_gone_after_delete two_routines token_A 4000 token_B
                  5000 "t1" (authenticates_A two_routines eq_refl)
                  (ex_intro _ claims_B
                     eq_refl))).
Defined.

Lemma lists_are_complete_and_newest_first_witness :
  authenticates token_A 4000 stocked
  ∧ ∃ workouts,
      ListWorkouts token_A 4000 stocked
      = (callback (ListWorkoutsResponse workouts), stocked)
      ∧ workouts ≡ₚ workout (prisma stocked).
Proof.
  pose proof (authenticates_A stocked eq_refl) as HA.
  split; [exact HA|].
  destruct (lists_are_complete_and_newest_first stocked token_A 4000 HA)
    as [(workouts & Hout & Hperm & _) _].
  exists workouts. split; [exact Hout|exact Hperm].
Defined.

Lemma ListRoutines_filter_witness :
  authenticates token_A 4000 two_routines
  ∧ ∃ rows,
      ListRoutines token_A (Some "t1") 4000 two_routines
      = (callback
           (ListRoutinesResponse
              (map (routine_with_trainee (prisma two_routines)) rows)),
         two_routines)
      ∧ rows ≡ₚ filter (λ r, Routine.userId r = "t1")
                  (routine (prisma two_routines)).
Proof.
  pose proof (authenticates_A two_routines eq_refl) as HA.
  split; [exact HA|].
  destruct (ListRoutines_filter two_routines token_A 4000 (Some "t1") HA)
    as (rows & Hout & _ & _ & Hsome).
  exists rows. split; [exact Hout|].
  exact (proj1 (Hsome "t1" eq_refl ltac:(discriminate))).
Defined.



Lemma client_logout_witness :
  deleteSession 3000 {| this_token := Some token_A |} logged_in
  = (resolved (Some (DeleteSessionResponse "Successfully logged out")),
     new_client, logged_out)
  ∧ checkSession 4000 new_client logged_out
    = (rejected MissingToken, new_client, logged_out).
Proof.
  assert (Hout : deleteSession 3000 {| this_token := Some token_A |} logged_in
                 = (resolved
                      (Some (DeleteSessionResponse "Successfully logged out")),
                    new_client, logged_out)) by reflexivity.
  split; [exact Hout|].
  exact (proj1 (proj2 (proj2 (proj2 (client_logout _ _ _ _ _ _ Hout))
                         4000 "" logged_out))).
Defined.

Lemma client_createRegistration_keeps_times_witness :
  authenticates token_A 4000 logged_in
  ∧ ∃ m row sv',
      createRegistration "event-123" "t1" "guest@x.com" 7250 (Some 9000) ""
        4000 "g1" {| this_token := Some token_A |} logged_in
      = (resolved (Some (RegistrationResponse m)),
         {| this_token := Some token_A |}, sv')
      ∧ registration (prisma sv') = registration (prisma logged_in) ++ [row]
      ∧ Registration.startTime row = Some 7250
      ∧ Registration.endTime row = Some 9000.
Proof.
  pose proof (authenticates_A logged_in eq_refl) as HA.
  split; [exact HA|].
  destruct (client_createRegistration_keeps_times "event-123" "t1"
              "guest@x.com" 7250 (Some 9000) "" 4000 "g1"
              {| this_token := Some token_A |} logged_in token_A trainee_A
              eq_refl HA ltac:(discriminate) ltac:(discriminate)
              ltac:(discriminate) eq_refl ltac:(lia)
              ltac:(intros e [= <-]; lia))
    as (m & row & sv' & Hout & Hrows & Hstart & Hend & _).
  exists m, row, sv'. repeat (split; [assumption|]). assumption.
Defined.

Lemma client_createTrainee_again_witness :
  createTrainee "A" "a@x.com" "pw" "UTC" 1000 "t1" new_client start
  = (resolved
       (Some (TraineeResponse
                (formatTrainee (Some (selected_trainee trainee_A))))),
     new_client, registered)
  ∧ createTrainee "A" "a@x.com" "pw" "UTC" 2000 "t2" new_client registered
    = (resolved None, new_client, registered).
Proof.
  assert (Hfirst : createTrainee "A" "a@x.com" "pw" "UTC" 1000 "t1"
                     new_client start
                   = (resolved
                        (Some (TraineeResponse
                                 (formatTrainee
                                    (Some (selected_trainee trainee_A))))),
                      new_client, registered)) by reflexivity.
  split; [exact Hfirst|].
  exact (proj2 (client_createTrainee_again "A" "a@x.com" "pw" "UTC"
                  new_client start)
           1000 "t1" _ new_client registered 2000 "t2" Hfirst).
Defined.

End FurtherScenarios.
